(** * clockify-cli: the HTTP client of package [http]

    A shallow embedding of [src/http/http.go]: client construction
    ([NewHttpClient]), the header-injecting [transport], the request
    builder ([NewRequest]) and the response processor ([Do]).

    Go's standard library ([net/url], [net/http], [encoding/json]) and the
    network are not part of the package: they enter through the classes
    [Platform], [Encoder] and [Decoder].  Effects (requests put on the wire,
    response bodies closed, codec calls, logger output) are threaded
    through a small state monad over [World]. *)

From Stdlib Require Import ZArith String Ascii List Bool Lia.
From stdpp Require Import base option strings gmap.
Import ListNotations.

Local Open Scope string_scope.
Local Open Scope Z_scope.

(** ** Errors *)

(** [type Error struct { Message string; Code int }] *)
Record Error := mkError { Message : string; Code : Z }.

(** Go's [error] interface, by the dynamic types that reach this package:
    - [errorString]: a value made by [errors.New] in this package;
    - [apiError]: an [Error] value (it implements [error]);
    - [libraryError]: an error made by the standard library or the network
      ([url.Error], [json.SyntaxError], [io.EOF], ...);
    - [withStack]: the wrapper of [github.com/pkg/errors], holding the
      wrapped error and the program counter of the wrapping call (here: the
      source line of the call). *)
Inductive error :=
| errorString (s : string)
| apiError (e : Error)
| libraryError (pkg msg : string)
| withStack (cause : error) (pc : nat).

(** [stackedErrors.WithStack]: [nil] stays [nil]. *)
Definition WithStack (pc : nat) (err : option error) : option error :=
  match err with
  | None => None
  | Some e => Some (withStack e pc)
  end.

(** [stackedErrors.Cause]: strips the wrappers. *)
Fixpoint Cause (err : error) : error :=
  match err with
  | withStack e _ => Cause e
  | e => e
  end.

(** The type assertion [_, ok := Cause(err).(Error)]. *)
Definition is_Error (err : error) : bool :=
  match Cause err with
  | apiError _ => true
  | _ => false
  end.

(** A library result [(x, err)] of which exactly one is non-nil. *)
Inductive Result (A : Type) :=
| Ok (a : A)
| Err (e : error).
Arguments Ok {A} a.
Arguments Err {A} e.

(** [var ErrorMissingAPIKey = errors.New("api Key must be informed")] *)
Definition ErrorMissingAPIKey : error := errorString "api Key must be informed".

(** [var ErrorNotFound = Error{Message: "Nothing was found"}] *)
Definition ErrorNotFound : Error := {| Message := "Nothing was found"; Code := 0 |}.

(** [func (e Error) Error() string]: ["%s (code: %d)"]. *)
Definition decimal (z : Z) : string := pretty.pretty z.
Definition Error_Error (e : Error) : string :=
  Message e +:+ " (code: " +:+ decimal (Code e) +:+ ")".

(** ** Requests, responses *)

(** The fields of [url.URL] this package reads or that a [QueryAppender]
    rewrites. *)
Record URL := mkURL {
  Scheme : string;
  Host : string;
  Path : string;
  RawQuery : string;
  Fragment : string
}.

(** [http.Header] ([map[string][]string]); [Set] replaces the values. *)
Definition Header_Set (k v : string) (h : gmap string (list string))
  : gmap string (list string) := <[k := [v]]> h.

(** [http.Request]: the body is the content of the buffer handed to
    [http.NewRequest], [None] for a nil reader. *)
Record Request := mkRequest {
  Method : string;
  req_URL : URL;
  req_Header : gmap string (list string);
  req_Body : option string
}.

Definition set_Header (k v : string) (r : Request) : Request :=
  {| Method := Method r; req_URL := req_URL r;
     req_Header := Header_Set k v (req_Header r); req_Body := req_Body r |}.

(** [r.Body], an [io.ReadCloser]: the bytes it delivers and the error, if
    any, that ends the stream in place of [io.EOF]. *)
Record Reader := mkReader { data : string; failure : option error }.

(** [http.Response] *)
Record Response := mkResponse { StatusCode : Z; Body : Reader }.

(** What [http.Client.Do] hands back: a response and no error, or an error
    (with which a response may still come). *)
Inductive Outcome :=
| Responded (r : Response)
| Failed (r : option Response) (err : error).

(** ** The platform *)

Class Platform := {
  (** [url.Parse] *)
  url_Parse : string -> Result URL;
  (** [URL.Parse]: parse a reference and resolve it against the receiver *)
  URL_Parse : URL -> string -> Result URL;
  (** [URL.String] *)
  URL_String : URL -> string;
  (** [validMethod] and [removeEmptyPort] of [net/http] *)
  validMethod : string -> bool;
  removeEmptyPort : string -> string;
  (** [http.DefaultTransport]: the answer to a request, given the requests
      sent before it *)
  DefaultTransport : list Request -> Request -> Outcome
}.

(** [encoding/json] at a Go type [T]:
    [json.NewEncoder(buf).Encode(v)] gives the bytes written to [buf], or
    fails; [json.NewDecoder(buf).Decode(&v)] reads [buf] into [v] and gives
    [v] afterwards with the error, if any. *)
Class Encoder (T : Type) := json_Encode : T -> Result string.
Class Decoder (T : Type) := json_Decode : string -> T -> T * option error.

(** [QueryAppender]: [AppendToQuery(url.URL) url.URL] *)
Class QueryAppender (T : Type) := AppendToQuery : T -> URL -> URL.

(** ** The world and its monad *)

(** Values passed to [Printf]. *)
#[warnings="-register-all"]
Inductive LogArg :=
| AString (s : string)
| AInt (z : Z)
| ABuffer (content : string)
| ASlice (vs : list LogArg).

(** [type Logger interface { Printf(string, ...interface{}) }]: an
    implementation writes a line to its output and returns nothing. *)
Record Logger := mkLogger {
  Printf : string -> list LogArg -> list string -> list string
}.

Inductive CodecOp :=
| Encoded
| Decoded (buf : string).

Record World := mkWorld {
  wire : list Request;    (** requests given to [http.DefaultTransport], newest first *)
  closed : nat;           (** response bodies closed *)
  codec : list CodecOp;   (** encoder and decoder calls, newest first *)
  diag : list string      (** the logger's output *)
}.

Definition M (A : Type) : Type := World -> A * World.

Definition ret {A} (a : A) : M A := fun w => (a, w).
Definition bind {A B} (m : M A) (k : A -> M B) : M B :=
  fun w => let (a, w') := m w in k a w'.

Notation "x <- m ;; k" := (bind m (fun x => k))
  (at level 100, m at next level, right associativity).
Notation "m ;;; k" := (bind m (fun _ => k))
  (at level 100, right associativity).

Definition run {A} (m : M A) (w : World) : A := fst (m w).
Definition exec {A} (m : M A) (w : World) : World := snd (m w).

Definition World0 : World := {| wire := []; closed := 0; codec := []; diag := [] |}.

(** ** The client *)

Inductive RoundTripper := http_DefaultTransport.

(** [type transport struct { apiKey string; next http.RoundTripper }] *)
Record transport := mkTransport { apiKey : string; next : RoundTripper }.

(** [type Client struct { baseURL url.URL; http.Client; Logger Logger }];
    of the embedded [http.Client] only [Transport] is set. *)
Record Client := mkClient {
  baseURL : URL;
  Transport : transport;
  Logger_ : option Logger
}.

Definition set_codec (f : list CodecOp -> list CodecOp) (w : World) : World :=
  {| wire := wire w; closed := closed w; codec := f (codec w); diag := diag w |}.
Definition set_diag (f : list string -> list string) (w : World) : World :=
  {| wire := wire w; closed := closed w; codec := codec w; diag := f (diag w) |}.
Definition set_closed (f : nat -> nat) (w : World) : World :=
  {| wire := wire w; closed := f (closed w); codec := codec w; diag := diag w |}.

(** [json.NewEncoder(buf).Encode(v)] and [decoder.Decode(&v)], recorded. *)
Definition Encode {T} `{Encoder T} (v : T) : M (Result string) :=
  fun w => (json_Encode v, set_codec (cons Encoded) w).
Definition Decode {T} `{Decoder T} (buf : string) (v : T) : M (T * option error) :=
  fun w => (json_Decode buf v, set_codec (cons (Decoded buf)) w).

(** [r.Body.Close()] *)
Definition Body_Close : M unit := fun w => (tt, set_closed S w).

(** [defer m]: [m] runs when the surrounding function returns. *)
Definition defer {A} (m : M unit) (body : M A) : M A :=
  a <- body ;; m ;;; ret a.

(** [io.Copy(buf, r)]: the content of [buf] afterwards, and the error. *)
Definition io_Copy (r : Reader) : string * option error := (data r, failure r).

(** [func (c *Client) logf(format string, v ...interface{})]: the variadic
    slice [v] is handed to [Printf] as one argument. *)
Definition logf (c : Client) (format : string) (v : list LogArg) : M unit :=
  match Logger_ c with
  | None => ret tt
  | Some l => fun w => (tt, set_diag (Printf l format [ASlice v]) w)
  end.

Definition dquote : string := String (ascii_of_nat 34) EmptyString.

Section Package.
Context `{Platform}.
Context {Error_Decoder : Decoder Error}.

(** [next.RoundTrip(r)]: the request goes on the wire. *)
Definition next_RoundTrip (n : RoundTripper) (r : Request) : M Outcome :=
  fun w => (DefaultTransport (wire w) r,
            {| wire := r :: wire w; closed := closed w;
               codec := codec w; diag := diag w |}).

(** [func (t transport) RoundTrip]: set the key header, then delegate. *)
Definition RoundTrip (t : transport) (r : Request) : M Outcome :=
  next_RoundTrip (next t) (set_Header "X-Api-Key" (apiKey t) r).

(** [func NewHttpClient(baseURL, apiKey string)], giving a client and an
    error of which one is nil. *)
Definition NewHttpClient (baseURL apiKey : string)
  : M (option Client * option error) :=
  if (String.length apiKey =? 0)%nat then
    ret (None, WithStack 39 (Some ErrorMissingAPIKey))
  else
    match url_Parse baseURL with
    | Err err => ret (None, WithStack 44 (Some err))
    | Ok u =>
        ret (Some {| baseURL := u;
                     Transport := {| apiKey := apiKey; next := http_DefaultTransport |};
                     Logger_ := None |},
             None)
    end.

(** [http.NewRequest(method, url, body)] of [net/http]: an empty method
    means GET, the method is validated, the URL parsed; the new request has
    an empty header map. *)
Definition http_NewRequest (method url : string) (body : option string)
  : Result Request :=
  let method := if (String.length method =? 0)%nat then "GET" else method in
  if negb (validMethod method) then
    Err (libraryError "net/http"
           ("net/http: invalid method " +:+ dquote +:+ method +:+ dquote))
  else
    match url_Parse url with
    | Err err => Err err
    | Ok u =>
        Ok {| Method := method;
              req_URL := {| Scheme := Scheme u; Host := removeEmptyPort (Host u);
                            Path := Path u; RawQuery := RawQuery u;
                            Fragment := Fragment u |};
              req_Header := ∅;
              req_Body := body |}
    end.

(** [func (c *Client) NewRequest(method, uri string, body interface{})].
    [body] is [None] for nil; [qa] is the outcome of the type assertion
    [body.(QueryAppender)] for the dynamic type [T] of a non-nil body. *)
Definition NewRequest {T} `{Encoder T} (qa : option (QueryAppender T))
    (c : Client) (method uri : string) (body : option T)
  : M (option Request * option error) :=
  match URL_Parse (baseURL c) (String.concat "/" [Path (baseURL c); uri]) with
  | Err err => ret (None, Some err)
  | Ok u =>
      let u := match body, qa with
               | Some b, Some q => @AppendToQuery T q b u
               | _, _ => u
               end in
      let body := if String.eqb method "GET" then None else body in
      buf <- match body with
             | None => ret (Ok None)
             | Some b =>
                 e <- Encode b ;;
                 match e with
                 | Err err => ret (Err err)
                 | Ok bytes =>
                     logf c "request body: %s" [ABuffer bytes] ;;;
                     ret (Ok (Some bytes))
                 end
             end ;;
      match buf with
      | Err err => ret (None, Some err)
      | Ok buf =>
          match http_NewRequest method (URL_String u) buf with
          | Err err => ret (None, Some err)
          | Ok req =>
              let req := match body with
                         | Some _ => set_Header "Content-Type" "application/json" req
                         | None => req
                         end in
              ret (Some (set_Header "Accept" "application/json" req), None)
          end
      end
  end.

(** [c.Client.Do(req)] of the embedded [http.Client]: the client sends the
    request through its [Transport] and comes back with a response or with
    an error.  The model is one round trip.  The further round trips of a
    redirect that the client follows, and the [url.Error] in which it
    reports a failure, are not modelled: what is proved of [Do] after a
    failure, or of the response it returns, is stated on the outcome of
    this call. *)
Definition http_Client_Do (c : Client) (req : Request) : M Outcome :=
  RoundTrip (Transport c) req.

(** [func (c *Client) Do(req *http.Request, v interface{})].  [v] is [None]
    for nil, else the value the destination points to; the third component
    of the result is that value when [Do] returns. *)
Definition Do {T} `{Decoder T} (c : Client) (req : Request) (v : option T)
  : M (option Response * option error * option T) :=
  o <- http_Client_Do c req ;;
  match o with
  | Failed r err => ret (r, Some err, v)
  | Responded r =>
      defer Body_Close
        (let (buf, err) := io_Copy (Body r) in
         match err with
         | Some err => ret (None, WithStack 140 (Some err), v)
         | None =>
             logf c ("url: %s, status: %d, body: " +:+ dquote +:+ "%s" +:+ dquote)
                    [AString (URL_String (req_URL req)); AInt (StatusCode r);
                     ABuffer buf] ;;;
             if StatusCode r =? 404 then
               ret (Some r, WithStack 146 (Some (apiError ErrorNotFound)), v)
             else if (StatusCode r <? 200) || (StatusCode r >? 300) then
               d <- @Decode Error Error_Decoder buf {| Message := EmptyString; Code := 0 |} ;;
               match snd d with
               | Some err => ret (Some r, WithStack 155 (Some err), v)
               | None => ret (Some r, WithStack 157 (Some (apiError (fst d))), v)
               end
             else
               match v with
               | None => ret (Some r, None, v)
               | Some dst =>
                   if (String.length buf =? 0)%nat then ret (Some r, None, v)
                   else
                     d <- Decode buf dst ;;
                     ret (Some r, WithStack 168 (snd d), Some (fst d))
               end
         end)
  end.

End Package.

(** ** A small platform for the examples

    The theorems below hold for every [Platform], [Encoder] and [Decoder].
    To run the package on concrete inputs, this module gives one platform:
    a decoder and an encoder for [Error] on flat JSON objects, a URL
    parser for [scheme://host/path?query#fragment], and a network that
    answers from a given function.  It follows Go's libraries on the inputs
    the examples use and claims no more: nested values, escapes other than
    a backslash before a quote, a backslash or a slash, and dot segments are
    left out. *)
Module Mini.

Definition code (c : ascii) : nat := nat_of_ascii c.
Definition is_space (c : ascii) : bool :=
  let n := code c in ((n =? 32) || (n =? 9) || (n =? 10) || (n =? 13))%nat.
Definition is_digit (c : ascii) : bool :=
  let n := code c in ((48 <=? n) && (n <=? 57))%nat.
Definition is_letter (c : ascii) : bool :=
  let n := code c in (((65 <=? n) && (n <=? 90)) || ((97 <=? n) && (n <=? 122)))%nat.
Definition lower (c : ascii) : ascii :=
  let n := code c in
  if ((65 <=? n) && (n <=? 90))%nat then ascii_of_nat (n + 32) else c.

Fixpoint map_string (f : ascii -> ascii) (s : string) : string :=
  match s with
  | EmptyString => EmptyString
  | String c s' => String (f c) (map_string f s')
  end.

Fixpoint all_string (p : ascii -> bool) (s : string) : bool :=
  match s with
  | EmptyString => true
  | String c s' => p c && all_string p s'
  end.

Fixpoint skip_space (s : string) : string :=
  match s with
  | String c s' => if is_space c then skip_space s' else s
  | EmptyString => s
  end.

Definition syntax_error (msg : string) : error := libraryError "encoding/json" msg.
Definition type_error (field : string) : error :=
  libraryError "encoding/json" ("cannot unmarshal into Go struct field Error." +:+ field).
Definition io_EOF : error := libraryError "io" "EOF".

(** The text after an opening quote, up to the closing one. *)
Fixpoint read_string (s : string) : option (string * string) :=
  match s with
  | EmptyString => None
  | String c s' =>
      if (code c =? 34)%nat then Some (EmptyString, s')
      else if (code c =? 92)%nat then
        match s' with
        | String e s'' =>
            if ((code e =? 34) || (code e =? 92) || (code e =? 47))%nat then
              match read_string s'' with
              | Some (t, rest) => Some (String e t, rest)
              | None => None
              end
            else None
        | EmptyString => None
        end
      else if (code c <? 32)%nat then None
      else
        match read_string s' with
        | Some (t, rest) => Some (String c t, rest)
        | None => None
        end
  end.

Fixpoint read_digits (s : string) (acc : Z) : Z * string :=
  match s with
  | String c s' =>
      if is_digit c then read_digits s' (10 * acc + Z.of_nat (code c - 48)) else (acc, s)
  | EmptyString => (acc, s)
  end.

Inductive value :=
| VString (s : string)
| VInt (z : Z)
| VBool
| VNull.

Definition starts_with (p s : string) : option string :=
  if String.prefix p s then
    Some (String.substring (String.length p) (String.length s - String.length p) s)
  else None.

(** A JSON integer: no leading zero, no fraction, no exponent. *)
Definition read_int (neg : bool) (s : string) : option (value * string) :=
  match s with
  | String c s' =>
      if is_digit c then
        let (n, rest) := read_digits s 0 in
        let leading_zero :=
          match s' with
          | String d _ => (code c =? 48)%nat && is_digit d
          | EmptyString => false
          end in
        let fractional :=
          match rest with
          | String d _ => ((code d =? 46) || (code d =? 101) || (code d =? 69))%nat
          | EmptyString => false
          end in
        if leading_zero || fractional then None
        else Some (VInt (if neg then - n else n), rest)
      else None
  | EmptyString => None
  end.

Definition read_value (s : string) : option (value * string) :=
  match s with
  | String c s' =>
      if (code c =? 34)%nat then
        match read_string s' with
        | Some (t, rest) => Some (VString t, rest)
        | None => None
        end
      else if (code c =? 45)%nat then read_int true s'
      else if is_digit c then read_int false s
      else
        match starts_with "null" s, starts_with "true" s, starts_with "false" s with
        | Some rest, _, _ => Some (VNull, rest)
        | _, Some rest, _ => Some (VBool, rest)
        | _, _, Some rest => Some (VBool, rest)
        | _, _, _ => None
        end
  | EmptyString => None
  end.

Definition in_int_range (z : Z) : bool := (- 2 ^ 63 <=? z) && (z <? 2 ^ 63).

Definition first_error (old : option error) (e : error) : option error :=
  match old with
  | None => Some e
  | Some _ => old
  end.

(** One member of the object stored into the destination: keys match
    without regard to case, [null] and unknown keys change nothing, a value
    of the wrong type is skipped and reported. *)
Definition assign (key : string) (v : value) (st : Error * option error)
  : Error * option error :=
  let (e, err) := st in
  let k := map_string lower key in
  if String.eqb k "message" then
    match v with
    | VString t => ({| Message := t; Code := Code e |}, err)
    | VNull => st
    | _ => (e, first_error err (type_error "message"))
    end
  else if String.eqb k "code" then
    match v with
    | VInt z =>
        if in_int_range z then ({| Message := Message e; Code := z |}, err)
        else (e, first_error err (type_error "code"))
    | VNull => st
    | _ => (e, first_error err (type_error "code"))
    end
  else st.

(** The members after the opening brace; [None] on a syntax error. *)
Fixpoint read_members (fuel : nat) (s : string) (st : Error * option error)
  : option (Error * option error) :=
  match fuel with
  | O => None
  | S fuel' =>
      match skip_space s with
      | String c s1 =>
          if (code c =? 34)%nat then
            match read_string s1 with
            | Some (key, s2) =>
                match skip_space s2 with
                | String c2 s3 =>
                    if (code c2 =? 58)%nat then
                      match read_value (skip_space s3) with
                      | Some (v, s4) =>
                          let st' := assign key v st in
                          match skip_space s4 with
                          | String c4 s5 =>
                              if (code c4 =? 44)%nat then read_members fuel' s5 st'
                              else if (code c4 =? 125)%nat then Some st'
                              else None
                          | EmptyString => None
                          end
                      | None => None
                      end
                    else None
                | EmptyString => None
                end
            | None => None
            end
          else None
      | EmptyString => None
      end
  end.

(** [Decode] into an [Error]: the next JSON value of the buffer. *)
Definition decode_Error (buf : string) (dst : Error) : Error * option error :=
  match skip_space buf with
  | EmptyString => (dst, Some io_EOF)
  | String c s1 =>
      if (code c =? 123)%nat then
        match skip_space s1 with
        | String c1 _ =>
            if (code c1 =? 125)%nat then (dst, None)
            else
              match read_members (String.length buf) s1 (dst, None) with
              | Some st => st
              | None => (dst, Some (syntax_error "invalid character"))
              end
        | EmptyString => (dst, Some (syntax_error "unexpected end of JSON input"))
        end
      else if String.prefix "null" (String c s1) then (dst, None)
      else (dst, Some (syntax_error "invalid character"))
  end.

Fixpoint escape (s : string) : string :=
  match s with
  | EmptyString => EmptyString
  | String c s' =>
      if ((code c =? 34) || (code c =? 92))%nat
      then String (ascii_of_nat 92) (String c (escape s'))
      else String c (escape s')
  end.

Definition quoted (s : string) : string := dquote +:+ escape s +:+ dquote.
Definition newline : string := String (ascii_of_nat 10) EmptyString.

(** [Encode] of an [Error]: the object on one line, then a newline. *)
Definition encode_Error (e : Error) : Result string :=
  Ok ("{" +:+ quoted "message" +:+ ":" +:+ quoted (Message e) +:+ ","
      +:+ quoted "code" +:+ ":" +:+ decimal (Code e) +:+ "}" +:+ newline).

Definition Error_Decoder : Decoder Error := decode_Error.
Definition Error_Encoder : Encoder Error := encode_Error.

(** URLs of the shape [scheme://host/path?query#fragment]. *)
Definition nonempty (s : string) : bool := negb (String.length s =? 0)%nat.
Definition is_ctl (c : ascii) : bool := ((code c <? 32) || (code c =? 127))%nat.
Definition is_char (n : nat) (c : ascii) : bool := (code c =? n)%nat.

(** The text before the first character that satisfies [p], and the text
    after it when there is one. *)
Fixpoint split_at (p : ascii -> bool) (s : string) : string * option string :=
  match s with
  | EmptyString => (EmptyString, None)
  | String c s' =>
      if p c then (EmptyString, Some s')
      else let (a, b) := split_at p s' in (String c a, b)
  end.

Definition or_empty (o : option string) : string := default EmptyString o.

Definition parse_url (s : string) : Result URL :=
  if negb (all_string (fun c => negb (is_ctl c)) s) then
    Err (libraryError "net/url" "invalid control character in URL")
  else
    let (s1, frag) := split_at (is_char 35) s in
    let (s2, query) := split_at (is_char 63) s1 in
    let (sch, after) := split_at (is_char 58) s2 in
    let (scheme, rest) :=
      match after with
      | Some r => if nonempty sch && all_string is_letter sch
                  then (sch, r) else (EmptyString, s2)
      | None => (EmptyString, s2)
      end in
    match starts_with "//" rest with
    | Some r =>
        let (host, path) := split_at (is_char 47) r in
        Ok {| Scheme := scheme; Host := host;
              Path := match path with
                      | Some p => String (ascii_of_nat 47) p
                      | None => EmptyString
                      end;
              RawQuery := or_empty query; Fragment := or_empty frag |}
    | None =>
        Ok {| Scheme := scheme; Host := EmptyString; Path := rest;
              RawQuery := or_empty query; Fragment := or_empty frag |}
    end.

(** The path up to and with its last slash. *)
Fixpoint dirname (s : string) : string :=
  match s with
  | EmptyString => EmptyString
  | String c s' =>
      let d := dirname s' in
      if nonempty d || is_char 47 c then String c d else EmptyString
  end.

Definition resolve (base : URL) (ref : string) : Result URL :=
  match parse_url ref with
  | Err e => Err e
  | Ok r =>
      if nonempty (Scheme r) then Ok r
      else if nonempty (Host r) then
        Ok {| Scheme := Scheme base; Host := Host r; Path := Path r;
              RawQuery := RawQuery r; Fragment := Fragment r |}
      else if String.prefix "/" (Path r) then
        Ok {| Scheme := Scheme base; Host := Host base; Path := Path r;
              RawQuery := RawQuery r; Fragment := Fragment r |}
      else if nonempty (Path r) then
        Ok {| Scheme := Scheme base; Host := Host base;
              Path := dirname (Path base) +:+ Path r;
              RawQuery := RawQuery r; Fragment := Fragment r |}
      else
        Ok {| Scheme := Scheme base; Host := Host base; Path := Path base;
              RawQuery := if nonempty (RawQuery r) then RawQuery r
                          else RawQuery base;
              Fragment := Fragment r |}
  end.

Definition show_url (u : URL) : string :=
  (if nonempty (Scheme u) then Scheme u +:+ ":" else EmptyString)
  +:+ (if nonempty (Scheme u) || nonempty (Host u) then "//" +:+ Host u
       else EmptyString)
  +:+ Path u
  +:+ (if nonempty (RawQuery u) then "?" +:+ RawQuery u else EmptyString)
  +:+ (if nonempty (Fragment u) then "#" +:+ Fragment u else EmptyString).

Fixpoint strip_colon (s : string) : string :=
  match s with
  | EmptyString => EmptyString
  | String c EmptyString => if is_char 58 c then EmptyString else s
  | String c s' => String c (strip_colon s')
  end.

Definition platform (server : list Request -> Request -> Outcome) : Platform :=
  {| url_Parse := parse_url;
     URL_Parse := resolve;
     URL_String := show_url;
     validMethod := fun m => nonempty m && all_string is_letter m;
     removeEmptyPort := strip_colon;
     DefaultTransport := server |}.

(** A server that gives every request the same answer. *)
Definition always (o : Outcome) : list Request -> Request -> Outcome :=
  fun _ _ => o.

(** A request parameter that goes to the query string. *)
Record Filter := mkFilter { name : string }.

Definition Filter_AppendToQuery : QueryAppender Filter :=
  fun f u => {| Scheme := Scheme u; Host := Host u; Path := Path u;
                RawQuery := "name=" +:+ name f; Fragment := Fragment u |}.

Definition Filter_Encoder : Encoder Filter :=
  fun f => Ok ("{" +:+ quoted "name" +:+ ":" +:+ quoted (name f) +:+ "}" +:+ newline).

(** A logger that keeps the format strings it was given. *)
Definition format_logger : Logger :=
  {| Printf := fun format _ out => format :: out |}.

End Mini.

(** ** Inputs of the examples *)
Module Examples.
Import Mini.

Definition api : URL :=
  {| Scheme := "https"; Host := "api.clockify.me"; Path := "/api/v1";
     RawQuery := EmptyString; Fragment := EmptyString |}.

Definition client : Client :=
  {| baseURL := api;
     Transport := {| apiKey := "secret"; next := http_DefaultTransport |};
     Logger_ := None |}.

Definition get_workspaces : Request :=
  {| Method := "GET";
     req_URL := {| Scheme := "https"; Host := "api.clockify.me";
                   Path := "/api/v1/workspaces";
                   RawQuery := EmptyString; Fragment := EmptyString |};
     req_Header := {[ "Accept" := ["application/json"] ]};
     req_Body := None |}.

(** The same client with a logger set. *)
Definition loud_client : Client :=
  {| baseURL := api;
     Transport := {| apiKey := "secret"; next := http_DefaultTransport |};
     Logger_ := Some format_logger |}.

Definition answer (status : Z) (body : string) : Response :=
  {| StatusCode := status; Body := {| data := body; failure := None |} |}.

(** A platform whose server answers every request with [answer status body]. *)
Definition served (status : Z) (body : string) : Platform :=
  platform (always (Responded (answer status body))).

(** The error object with message [boom] and code 42, as a server sends it. *)
Definition boom : string :=
  "{" +:+ quoted "message" +:+ ":" +:+ quoted "boom" +:+ ","
  +:+ quoted "code" +:+ ":42}".

(** The error object that repeats the not-found sentinel. *)
Definition nothing : string :=
  "{" +:+ quoted "message" +:+ ":" +:+ quoted "Nothing was found" +:+ ","
  +:+ quoted "code" +:+ ":0}".

Definition get_missing : Request :=
  {| Method := "GET";
     req_URL := {| Scheme := "https"; Host := "api.clockify.me";
                   Path := "/api/v1/missing";
                   RawQuery := EmptyString; Fragment := EmptyString |};
     req_Header := {[ "Accept" := ["application/json"] ]};
     req_Body := None |}.

(** A server with nothing at [/api/v1/missing], and broken elsewhere in a
    way that words its error like the sentinel. *)
Definition missing_or_broken : list Request -> Request -> Outcome :=
  fun _ r =>
    if String.eqb (Path (req_URL r)) "/api/v1/missing"
    then Responded (answer 404 EmptyString)
    else Responded (answer 500 nothing).

(** [Do] of the example client, decoding into an [Error]. *)
Definition Do_served (status : Z) (body : string) (req : Request)
    (v : option Error) : M (option Response * option error * option Error) :=
  @Do (served status body) Error_Decoder Error Error_Decoder client req v.

(** [NewRequest] of the example client on the platform of the examples. *)
Definition NewRequest_Filter (method uri : string) (body : option Filter)
  : M (option Request * option error) :=
  @NewRequest (served 200 EmptyString) Filter Filter_Encoder
    (Some Filter_AppendToQuery) client method uri body.

Definition NewRequest_Error (method uri : string) (body : option Error)
  : M (option Request * option error) :=
  @NewRequest (served 200 EmptyString) Error Error_Encoder None
    client method uri body.

End Examples.

(** ** Strings of [encoding/json]

    The codec of [Error] with the string rules of [encoding/json]: the
    encoder of [json.NewEncoder] (HTML escaping on) writes a quote and a
    backslash behind a backslash, line feed, carriage return and tab as
    their two-letter escapes, the other control characters and the
    characters less-than, greater-than and ampersand as [\u00XX], valid
    UTF-8 as it is and every byte that is not valid UTF-8 as [\ufffd]; the
    decoder reads these escapes and [\uXXXX] back into UTF-8.  Left out:
    the escapes [\b] and [\f] that later versions of Go write for the
    control characters 8 and 12, the line separators U+2028 and U+2029, and
    surrogate pairs. *)
Module GoString.
Import Mini.

Definition is_cont (c : ascii) : bool := ((128 <=? code c) && (code c <=? 191))%nat.

(** The length of the UTF-8 sequence at the head of [s]; [0] when the
    head is not the start of a valid sequence. *)
Definition utf8_size (s : string) : nat :=
  match s with
  | EmptyString => 0
  | String c0 s1 =>
      let n0 := code c0 in
      if (n0 <? 128)%nat then 1
      else if ((194 <=? n0) && (n0 <=? 223))%nat then
        match s1 with
        | String c1 _ => if is_cont c1 then 2 else 0
        | _ => 0
        end
      else if ((224 <=? n0) && (n0 <=? 239))%nat then
        match s1 with
        | String c1 (String c2 _) =>
            if is_cont c1 && is_cont c2
               && (if (n0 =? 224)%nat then (160 <=? code c1)%nat else true)
               && (if (n0 =? 237)%nat then (code c1 <=? 159)%nat else true)
            then 3 else 0
        | _ => 0
        end
      else if ((240 <=? n0) && (n0 <=? 244))%nat then
        match s1 with
        | String c1 (String c2 (String c3 _)) =>
            if is_cont c1 && is_cont c2 && is_cont c3
               && (if (n0 =? 240)%nat then (144 <=? code c1)%nat else true)
               && (if (n0 =? 244)%nat then (code c1 <=? 143)%nat else true)
            then 4 else 0
        | _ => 0
        end
      else 0
  end%nat.

Definition hex_digit (n : nat) : ascii :=
  ascii_of_nat (if (n <? 10)%nat then 48 + n else 87 + n).

Definition backslash : ascii := ascii_of_nat 92.

(** [\u00XX] *)
Definition u00 (n : nat) : string :=
  String backslash
    ("u00" +:+ String (hex_digit (n / 16)) (String (hex_digit (n mod 16)) EmptyString)).

(** The escape the encoder writes for what is not valid UTF-8, and the
    UTF-8 bytes of U+FFFD. *)
Definition escaped_replacement : string := String backslash "ufffd".
Definition replacement : string :=
  String (ascii_of_nat 239) (String (ascii_of_nat 191)
    (String (ascii_of_nat 189) EmptyString)).

Definition escape_ascii (c : ascii) : string :=
  let n := code c in
  if ((n =? 34) || (n =? 92))%nat then String backslash (String c EmptyString)
  else if (n =? 10)%nat then String backslash "n"
  else if (n =? 13)%nat then String backslash "r"
  else if (n =? 9)%nat then String backslash "t"
  else if ((n <? 32) || (n =? 60) || (n =? 62) || (n =? 38))%nat then u00 n
  else String c EmptyString.

(** The last hex digit of the escape of U+2028 or U+2029, when [s] starts
    with the UTF-8 bytes of one of them. *)
Definition line_separator (s : string) : option ascii :=
  match s with
  | String c0 (String c1 (String c2 _)) =>
      if ((code c0 =? 226) && (code c1 =? 128))%nat then
        if (code c2 =? 168)%nat then Some (hex_digit 8)
        else if (code c2 =? 169)%nat then Some (hex_digit 9)
        else None
      else None
  | _ => None
  end.

(** The content of a JSON string for the Go string [s]; [skip] counts the
    bytes of a valid sequence still to be copied. *)
Fixpoint escape (skip : nat) (s : string) : string :=
  match s with
  | EmptyString => EmptyString
  | String c s' =>
      match skip with
      | S k => String c (escape k s')
      | O =>
          if (code c <? 128)%nat then escape_ascii c +:+ escape 0 s'
          else
            match utf8_size s with
            | O => escaped_replacement +:+ escape 0 s'
            | S k =>
                match line_separator s, s' with
                | Some d, String _ (String _ rest) =>
                    String backslash ("u202" +:+ String d (escape 0 rest))
                | _, _ => String c (escape k s')
                end
            end
      end
  end.

Definition quoted (s : string) : string := dquote +:+ escape 0 s +:+ dquote.

Definition encode_Error (e : Error) : Result string :=
  Ok ("{" +:+ quoted "message" +:+ ":" +:+ quoted (Message e) +:+ ","
      +:+ quoted "code" +:+ ":" +:+ decimal (Code e) +:+ "}" +:+ newline).

Definition hex_value (c : ascii) : option N :=
  let n := code c in
  if ((48 <=? n) && (n <=? 57))%nat then Some (N.of_nat (n - 48))
  else if ((97 <=? n) && (n <=? 102))%nat then Some (N.of_nat (n - 87))
  else if ((65 <=? n) && (n <=? 70))%nat then Some (N.of_nat (n - 55))
  else None.

Definition byte (n : nat) : string := String (ascii_of_nat n) EmptyString.

(** The UTF-8 bytes of a code point below 65536; a surrogate gives U+FFFD. *)
Definition utf8_of (cp : N) : string :=
  (if cp <? 128 then byte (N.to_nat cp)
   else if cp <? 2048 then
     byte (N.to_nat (192 + cp / 64)) +:+ byte (N.to_nat (128 + cp mod 64))
   else if (55296 <=? cp) && (cp <=? 57343) then replacement
   else byte (N.to_nat (224 + cp / 4096))
        +:+ byte (N.to_nat (128 + (cp / 64) mod 64))
        +:+ byte (N.to_nat (128 + cp mod 64)))%N.

Definition simple_escape (c : ascii) : option string :=
  let n := code c in
  if ((n =? 34) || (n =? 92) || (n =? 47))%nat then Some (String c EmptyString)
  else if (n =? 110)%nat then Some (byte 10)
  else if (n =? 114)%nat then Some (byte 13)
  else if (n =? 116)%nat then Some (byte 9)
  else if (n =? 98)%nat then Some (byte 8)
  else if (n =? 102)%nat then Some (byte 12)
  else None.

(** The text after an opening quote, up to the closing one, as the Go
    string it stands for. *)
Fixpoint read_string (skip : nat) (s : string) : option (string * string) :=
  match s with
  | EmptyString => None
  | String c s' =>
      match skip with
      | S k =>
          match read_string k s' with
          | Some (t, rest) => Some (String c t, rest)
          | None => None
          end
      | O =>
          if (code c =? 34)%nat then Some (EmptyString, s')
          else if (code c =? 92)%nat then
            match s' with
            | String e s'' =>
                if (code e =? 117)%nat then
                  match s'' with
                  | String h1 (String h2 (String h3 (String h4 s4))) =>
                      match hex_value h1, hex_value h2, hex_value h3, hex_value h4 with
                      | Some a, Some b, Some c', Some d =>
                          match read_string 0 s4 with
                          | Some (t, rest) =>
                              Some (utf8_of (((a * 16 + b) * 16 + c') * 16 + d)%N +:+ t,
                                    rest)
                          | None => None
                          end
                      | _, _, _, _ => None
                      end
                  | _ => None
                  end
                else
                  match simple_escape e, read_string 0 s'' with
                  | Some x, Some (t, rest) => Some (x +:+ t, rest)
                  | _, _ => None
                  end
            | EmptyString => None
            end
          else if (code c <? 32)%nat then None
          else if (code c <? 128)%nat then
            match read_string 0 s' with
            | Some (t, rest) => Some (String c t, rest)
            | None => None
            end
          else
            match utf8_size s with
            | O =>
                match read_string 0 s' with
                | Some (t, rest) => Some (replacement +:+ t, rest)
                | None => None
                end
            | S k =>
                match read_string k s' with
                | Some (t, rest) => Some (String c t, rest)
                | None => None
                end
            end
      end
  end.

Definition read_value (s : string) : option (value * string) :=
  match s with
  | String c s' =>
      if (code c =? 34)%nat then
        match read_string 0 s' with
        | Some (t, rest) => Some (VString t, rest)
        | None => None
        end
      else Mini.read_value s
  | EmptyString => None
  end.

(** The members after the opening brace; [None] on a syntax error. *)
Fixpoint read_members (fuel : nat) (s : string) (st : Error * option error)
  : option (Error * option error) :=
  match fuel with
  | O => None
  | S fuel' =>
      match skip_space s with
      | String c s1 =>
          if (code c =? 34)%nat then
            match read_string 0 s1 with
            | Some (key, s2) =>
                match skip_space s2 with
                | String c2 s3 =>
                    if (code c2 =? 58)%nat then
                      match read_value (skip_space s3) with
                      | Some (v, s4) =>
                          match skip_space s4 with
                          | String c4 s5 =>
                              if (code c4 =? 44)%nat
                              then read_members fuel' s5 (assign key v st)
                              else if (code c4 =? 125)%nat
                                   then Some (assign key v st)
                                   else None
                          | EmptyString => None
                          end
                      | None => None
                      end
                    else None
                | EmptyString => None
                end
            | None => None
            end
          else None
      | EmptyString => None
      end
  end.

Definition decode_Error (buf : string) (dst : Error) : Error * option error :=
  match skip_space buf with
  | EmptyString => (dst, Some io_EOF)
  | String c s1 =>
      if (code c =? 123)%nat then
        match skip_space s1 with
        | String c1 _ =>
            if (code c1 =? 125)%nat then (dst, None)
            else
              match read_members (String.length buf) s1 (dst, None) with
              | Some st => st
              | None => (dst, Some (syntax_error "invalid character"))
              end
        | EmptyString => (dst, Some (syntax_error "unexpected end of JSON input"))
        end
      else if String.prefix "null" (String c s1) then (dst, None)
      else (dst, Some (syntax_error "invalid character"))
  end.

Definition Error_Encoder : Encoder Error := encode_Error.
Definition Error_Decoder : Decoder Error := decode_Error.

(** The Go string of the one byte [0xff], which is not UTF-8. *)
Definition not_utf8 : string := byte 255.

End GoString.

(** ** More inputs *)
Module Cases.
Import Mini.

Definition refused : error := libraryError "net" "connection refused".
Definition cut_off : error := libraryError "io" "unexpected EOF".

(** A response whose body breaks off while it is read. *)
Definition broken_answer (status : Z) (body : string) : Response :=
  {| StatusCode := status; Body := {| data := body; failure := Some cut_off |} |}.

(** A platform whose network fails every request. *)
Definition offline : Platform := platform (always (Failed None refused)).

(** A platform whose server answers, and whose answer breaks off. *)
Definition breaking (status : Z) (body : string) : Platform :=
  platform (always (Responded (broken_answer status body))).

(** A Go value that [encoding/json] refuses. *)
Inductive Chan := make_chan.
Definition Chan_Encoder : Encoder Chan :=
  fun _ => Err (libraryError "encoding/json" "unsupported type: chan int").

(** A path with a line feed in it. *)
Definition bad_path : string := "work" +:+ newline +:+ "spaces".

(** [Do] of a client on a platform, decoding into an [Error]. *)
Definition Do_on (P : Platform) (c : Client) (req : Request)
    (v : option Error) : M (option Response * option error * option Error) :=
  @Do P Error_Decoder Error Error_Decoder c req v.

End Cases.

(** [err.Error()], by the dynamic type of [err].  The wrapper of
    [github.com/pkg/errors] embeds the error it wraps, so its text is the
    text of that error. *)
Fixpoint error_Error (err : error) : string :=
  match err with
  | errorString s => s
  | apiError e => Error_Error e
  | libraryError _ msg => msg
  | withStack e _ => error_Error e
  end.

(** The format of the line [Do] logs. *)
Definition Do_format : string :=
  "url: %s, status: %d, body: " +:+ dquote +:+ "%s" +:+ dquote.

(** The two header maps a new request can have. *)
Definition Accept_only : gmap string (list string) :=
  {[ "Accept" := ["application/json"] ]}.
Definition Accept_and_Content_Type : gmap string (list string) :=
  <["Accept" := ["application/json"]]>
    (<["Content-Type" := ["application/json"]]> ∅).

(** [h.Get(k)] is set to [v] alone. *)
Definition has_header (k v : string) (r : Request) : Prop :=
  req_Header r !! k = Some [v].

(** ** Package [cmd]: the root command

    [Execute] and [initConfig] of [cmd/root.go].  The command tree of
    [cobra], the settings of [viper], the home directory and the formatting
    of an error with its stack enter through the class [Environment]; the
    process state holds the package variables, the calls made to [viper] and
    what was written to the standard streams.  [os.Exit] ends a run. *)
Module cmd.

Inductive ViperCall :=
| SetConfigFile (file : string)
| AddConfigPath (dir : string)
| SetConfigName (name : string)
| SetEnvKeyReplacer (old new : string)
| SetEnvPrefix (prefix : string)
| AutomaticEnv
| ReadInConfig.

Record Process := mkProcess {
  cfgFile : string;
  version : string;
  commit : string;
  buildDate : string;
  viper : list ViperCall;   (** calls made, newest first *)
  stdout : list string;     (** writes, newest first *)
  stderr : list string      (** writes, newest first *)
}.

(** How a function ends: it returns, or the process exits with a status. *)
Inductive End (A : Type) :=
| Returned (a : A)
| Exited (status : Z).
Arguments Returned {A} a.
Arguments Exited {A} status.

Definition Run (A : Type) : Type := Process -> End A * Process.

Definition done {A} (a : A) : Run A := fun p => (Returned a, p).
Definition andThen {A B} (m : Run A) (k : A -> Run B) : Run B :=
  fun p =>
    match m p with
    | (Returned a, p') => k a p'
    | (Exited status, p') => (Exited status, p')
    end.

Notation "x <~ m ;; k" := (andThen m (fun x => k))
  (at level 100, m at next level, right associativity).
Notation "m ~~> k" := (andThen m (fun _ => k))
  (at level 100, right associativity).

(** [os.Exit(status)] *)
Definition os_Exit {A} (status : Z) : Run A := fun p => (Exited status, p).

(** The error of [viper.ReadInConfig], by the type the switch looks at. *)
Inductive ConfigError :=
| ConfigFileNotFoundError (err : error)
| OtherConfigError (err : error).

Class Environment := {
  (** [rootCmd.Execute()] *)
  rootCmd_Execute : Run (option error);
  (** [viper.GetBool(key)] *)
  viper_GetBool : string -> Process -> bool;
  (** the verb [%+v] on an error: its text and its stack *)
  format_plus_v : error -> string;
  (** [homedir.Dir()] *)
  homedir_Dir : Result string;
  (** [viper.ReadInConfig()], given the calls made before it *)
  viper_ReadInConfig : list ViperCall -> option ConfigError
}.

Definition set_build (v c d : string) : Run unit :=
  fun p => (Returned tt,
            {| cfgFile := cfgFile p; version := v; commit := c; buildDate := d;
               viper := viper p; stdout := stdout p; stderr := stderr p |}).

Definition call_viper (call : ViperCall) : Run unit :=
  fun p => (Returned tt,
            {| cfgFile := cfgFile p; version := version p; commit := commit p;
               buildDate := buildDate p; viper := call :: viper p;
               stdout := stdout p; stderr := stderr p |}).

Definition write_stdout (s : string) : Run unit :=
  fun p => (Returned tt,
            {| cfgFile := cfgFile p; version := version p; commit := commit p;
               buildDate := buildDate p; viper := viper p;
               stdout := s :: stdout p; stderr := stderr p |}).

Definition write_stderr (s : string) : Run unit :=
  fun p => (Returned tt,
            {| cfgFile := cfgFile p; version := version p; commit := commit p;
               buildDate := buildDate p; viper := viper p;
               stdout := stdout p; stderr := s :: stderr p |}).

Definition line_feed : string := String (ascii_of_nat 10) EmptyString.

(** [fmt.Println(err)], [fmt.Print(err)], [fmt.Fprintln(os.Stderr, s)] *)
Definition fmt_Println (err : error) : Run unit :=
  write_stdout (error_Error err +:+ line_feed).
Definition fmt_Print (err : error) : Run unit :=
  write_stdout (error_Error err).
Definition fmt_Fprintln_Stderr (s : string) : Run unit :=
  write_stderr (s +:+ line_feed).

Section Root.
Context `{Environment}.

Definition GetBool (key : string) : Run bool :=
  fun p => (Returned (viper_GetBool key p), p).

(** [viper.ReadInConfig()] *)
Definition ReadInConfig_ : Run (option ConfigError) :=
  fun p => (Returned (viper_ReadInConfig (viper p)),
            {| cfgFile := cfgFile p; version := version p; commit := commit p;
               buildDate := buildDate p; viper := ReadInConfig :: viper p;
               stdout := stdout p; stderr := stderr p |}).

(** [func Execute(v, c, d string)] *)
Definition Execute (v c d : string) : Run unit :=
  set_build v c d ~~>
  (err <~ rootCmd_Execute ;;
   match err with
   | None => done tt
   | Some err =>
       (debug <~ GetBool "debug" ;;
        if debug then write_stderr (format_plus_v err +:+ line_feed)
        else fmt_Fprintln_Stderr (error_Error err)) ~~>
       os_Exit 1
   end).

(** [func initConfig()] *)
Definition initConfig : Run unit :=
  (fun p =>
     (if negb (String.length (cfgFile p) =? 0)%nat then
        call_viper (SetConfigFile (cfgFile p))
      else
        match homedir_Dir with
        | Err err => fmt_Println err ~~> os_Exit 1
        | Ok home =>
            call_viper (AddConfigPath home) ~~>
            call_viper (SetConfigName ".clockify-cli")
        end) p) ~~>
  call_viper (SetEnvKeyReplacer "." "_") ~~>
  call_viper (SetEnvPrefix "clockify") ~~>
  call_viper AutomaticEnv ~~>
  (err <~ ReadInConfig_ ;;
   match err with
   | None => done tt
   | Some (ConfigFileNotFoundError _) => done tt
   | Some (OtherConfigError err) => fmt_Print err
   end).

End Root.

(** An environment for the examples: what the command tree returns, the
    debug setting, the home directory and the outcome of reading the
    configuration are given. *)
Definition environment (root : option error) (debug : bool)
    (home : Result string) (read : option ConfigError) : Environment :=
  {| rootCmd_Execute := done root;
     viper_GetBool := fun _ _ => debug;
     format_plus_v := fun err => error_Error err +:+ line_feed +:+ "(stack)";
     homedir_Dir := home;
     viper_ReadInConfig := fun _ => read |}.

Definition Process0 : Process :=
  {| cfgFile := EmptyString; version := EmptyString; commit := EmptyString;
     buildDate := EmptyString; viper := []; stdout := []; stderr := [] |}.

Definition with_cfgFile (f : string) (p : Process) : Process :=
  {| cfgFile := f; version := version p; commit := commit p;
     buildDate := buildDate p; viper := viper p;
     stdout := stdout p; stderr := stderr p |}.

End cmd.

(** * Properties *)


(** What of the world is not diagnostics. *)
Definition observable (w : World) : list Request * nat * list CodecOp :=
  (wire w, closed w, codec w).

(** The request as the wire sees it. *)
Definition keyed (c : Client) (req : Request) : Request :=
  set_Header "X-Api-Key" (apiKey (Transport c)) req.

Definition zero_Error : Error := {| Message := EmptyString; Code := 0 |}.

(** The error of a result of [Do]. *)
Definition error_of {T} (res : option Response * option error * option T)
  : option error := snd (fst res).

(** [http.NewRequest] cleans the host of the URL it parsed. *)
Definition cleaned `{Platform} (u : URL) : URL :=
  {| Scheme := Scheme u; Host := removeEmptyPort (Host u); Path := Path u;
     RawQuery := RawQuery u; Fragment := Fragment u |}.

Section Properties.
Context `{Platform}.
Context {Error_Decoder : Decoder Error}.

Lemma logf_frame c format v w :
  observable (snd (logf c format v w)) = observable w.
Proof. unfold logf. destruct (Logger_ c); reflexivity. Qed.


Ltac step_Do :=
  unfold run, exec, error_of, Do, http_Client_Do, RoundTrip, next_RoundTrip,
    defer, Body_Close, Decode, bind, ret, io_Copy, keyed in *;
  cbn [fst snd wire] in *.

Ltac step_logf :=
  match goal with
  | |- context [logf ?c ?f ?v ?w] =>
      let E := fresh "E" in
      let u := fresh "u" in
      let w' := fresh "w" in
      pose proof (logf_frame c f v w) as E;
      destruct (logf c f v w) as [u w']; destruct u;
      unfold observable in E; cbn [fst snd wire closed codec] in E;
      destruct w'; cbn [wire closed codec] in E; inversion E; subst; clear E
  end.

(** ** The response processor *)

(** C3. A response with status 404, whatever its body holds, makes [Do]
    return the response with the wrapped [ErrorNotFound], the destination
    untouched, and no decoder call is made.  (The body was read to its end:
    a failing read ends [Do] before the status is looked at.) *)
Theorem Do_404_NotFound {T} `{Decoder T} (c : Client) (req : Request)
    (v : option T) (w : World) (r : Response) :
  DefaultTransport (wire w) (keyed c req) = Responded r ->
  failure (Body r) = None ->
  StatusCode r = 404 ->
  run (Do c req v) w
    = (Some r, Some (withStack (apiError ErrorNotFound) 146), v)
  /\ codec (exec (Do c req v) w) = codec w.
Proof.
  intros Hnet Hread Hst. step_Do. rewrite Hnet, Hread.
  step_logf. rewrite Hst. cbn. auto.
Qed.

(** A status the code takes for a success: 200 to 300, both included. *)
Lemma success_branch (s : Z) :
  200 <= s <= 300 ->
  (s =? 404) = false /\ ((s <? 200) || (s >? 300)) = false.
Proof. intros Hs. split; [apply Z.eqb_neq | apply orb_false_iff; split]; lia. Qed.

(** A status the code takes for a failure other than 404. *)
Lemma failure_branch (s : Z) :
  s < 200 \/ s > 300 -> s <> 404 ->
  (s =? 404) = false /\ ((s <? 200) || (s >? 300)) = true.
Proof.
  intros Hs Hn. split; [apply Z.eqb_neq; lia | apply orb_true_iff].
  destruct Hs; [left | right]; lia.
Qed.

(** C7. A response with a status that [Do] takes for a success (200 to 300,
    which holds the whole range from 200 up to but not including 300) and
    an empty body, with a destination supplied: [Do] returns the response
    without error, the destination holds what it held, and no decoder call
    is made. *)
Theorem Do_success_empty_body {T} `{Decoder T} (c : Client) (req : Request)
    (dst : T) (w : World) (r : Response) :
  DefaultTransport (wire w) (keyed c req) = Responded r ->
  failure (Body r) = None ->
  200 <= StatusCode r <= 300 ->
  data (Body r) = EmptyString ->
  run (Do c req (Some dst)) w = (Some r, None, Some dst)
  /\ codec (exec (Do c req (Some dst)) w) = codec w.
Proof.
  intros Hnet Hread Hst Hdata. step_Do. rewrite Hnet, Hread.
  step_logf.
  destruct (success_branch (StatusCode r)) as [-> ->]; [lia |].
  rewrite Hdata. cbn. auto.
Qed.

(** C6. A response whose status the code takes for a failure (below 200 or
    above 300) and which is not 404: the body is decoded into a fresh
    [Error], once.  When the decoder succeeds with [e] (so for a body that
    decodes to message [boom] and code 42, [e] has these), [Do] returns the
    response with [e] wrapped; when it fails with [err], [Do] returns the
    response with [err] wrapped. *)
Theorem Do_failure_status_APIError {T} `{Decoder T} (c : Client)
    (req : Request) (v : option T) (w : World) (r : Response) :
  DefaultTransport (wire w) (keyed c req) = Responded r ->
  failure (Body r) = None ->
  StatusCode r < 200 \/ StatusCode r > 300 ->
  StatusCode r <> 404 ->
  (forall e, @json_Decode Error Error_Decoder (data (Body r)) zero_Error = (e, None) ->
     run (Do c req v) w = (Some r, Some (withStack (apiError e) 157), v))
  /\ (forall e err,
        @json_Decode Error Error_Decoder (data (Body r)) zero_Error = (e, Some err) ->
        run (Do c req v) w = (Some r, Some (withStack err 155), v))
  /\ codec (exec (Do c req v) w) = Decoded (data (Body r)) :: codec w.
Proof.
  intros Hnet Hread Hst Hn. step_Do. rewrite Hnet, Hread.
  step_logf.
  destruct (failure_branch (StatusCode r)) as [-> ->]; [assumption.. |].
  unfold zero_Error. cbn [set_codec codec].
  repeat split.
  - intros e ->. reflexivity.
  - intros e err ->. reflexivity.
  - destruct (json_Decode _ _) as [e [err|]]; reflexivity.
Qed.

(** At status 300 neither test of [Do] fires: with no destination the
    response comes back without error and the body is not decoded. *)
Lemma Do_status_300 {T} `{Decoder T} (c : Client) (req : Request)
    (w : World) (r : Response) :
  DefaultTransport (wire w) (keyed c req) = Responded r ->
  failure (Body r) = None ->
  StatusCode r = 300 ->
  run (Do c req (@None T)) w = (Some r, None, None)
  /\ codec (exec (Do c req (@None T)) w) = codec w.
Proof.
  intros Hnet Hread Hst. step_Do. rewrite Hnet, Hread.
  step_logf. rewrite Hst. cbn. auto.
Qed.

(** C10. [ErrorNotFound] is an [Error] with message [Nothing was found] and
    code 0.  The error [Do] returns for a 404 (to [req]) and the error it
    returns for a failure status whose body decodes to [e] (to [req']) both
    have a cause of type
    [Error], so the type assertion holds for both; and when [e] has the
    message and code of the sentinel, the two causes are the same value. *)
Theorem ErrorNotFound_same_type_as_APIError {T} `{Decoder T}
    (c : Client) (req req' : Request) (v : option T) (w w' : World)
    (r r' : Response) (e : Error) :
  DefaultTransport (wire w) (keyed c req) = Responded r ->
  failure (Body r) = None ->
  StatusCode r = 404 ->
  DefaultTransport (wire w') (keyed c req') = Responded r' ->
  failure (Body r') = None ->
  StatusCode r' < 200 \/ StatusCode r' > 300 ->
  StatusCode r' <> 404 ->
  @json_Decode Error Error_Decoder (data (Body r')) zero_Error = (e, None) ->
  Message ErrorNotFound = "Nothing was found" /\ Code ErrorNotFound = 0
  /\ exists e404 eAPI,
       error_of (run (Do c req v) w) = Some e404
       /\ error_of (run (Do c req' v) w') = Some eAPI
       /\ Cause e404 = apiError ErrorNotFound /\ Cause eAPI = apiError e
       /\ is_Error e404 = true /\ is_Error eAPI = true
       /\ (Message e = "Nothing was found" -> Code e = 0 ->
           Cause eAPI = Cause e404).
Proof.
  intros Hnet Hread Hst Hnet' Hread' Hst' Hn' Hdec.
  split; [reflexivity | split; [reflexivity |]].
  exists (withStack (apiError ErrorNotFound) 146), (withStack (apiError e) 157).
  assert (E404 : error_of (run (Do c req v) w)
                 = Some (withStack (apiError ErrorNotFound) 146)).
  { step_Do. rewrite Hnet, Hread. step_logf. rewrite Hst. reflexivity. }
  assert (Eapi : error_of (run (Do c req' v) w')
                 = Some (withStack (apiError e) 157)).
  { step_Do. rewrite Hnet', Hread'. step_logf.
    destruct (failure_branch (StatusCode r')) as [-> ->]; [assumption.. |].
    unfold zero_Error in Hdec. rewrite Hdec. reflexivity. }
  rewrite E404, Eapi. cbn. repeat split.
  intros Hm Hc. destruct e as [m k]; cbn in *; subst. reflexivity.
Qed.

(** ** Construction *)

(** C4. With an empty key [NewHttpClient] fails with the wrapped
    [ErrorMissingAPIKey], for every base URL; with a key that is not empty
    and a base URL that [url.Parse] accepts it returns a client on that
    URL.  Both leave the world as it was: nothing goes on the wire. *)
Theorem NewHttpClient_key_and_url :
  (forall (baseURL : string) (w : World),
      NewHttpClient baseURL EmptyString w
      = ((None, Some (withStack ErrorMissingAPIKey 39)), w))
  /\ (forall (baseURL apiKey : string) (u : URL) (w : World),
        apiKey <> EmptyString ->
        url_Parse baseURL = Ok u ->
        NewHttpClient baseURL apiKey w
        = ((Some {| baseURL := u;
                    Transport := {| apiKey := apiKey;
                                    next := http_DefaultTransport |};
                    Logger_ := None |}, None), w)).
Proof.
  split.
  - intros baseURL w. reflexivity.
  - intros baseURL apiKey u w Hkey Hurl. unfold NewHttpClient.
    destruct apiKey as [| a k]; [contradiction |].
    cbn. rewrite Hurl. reflexivity.
Qed.

(** ** The request builder *)

Ltac step_NewRequest :=
  unfold run, exec, NewRequest, Encode, bind, ret in *; cbn [fst snd] in *.

Lemma http_NewRequest_fields method url body req :
  http_NewRequest method url body = Ok req ->
  req_Body req = body /\ req_Header req = ∅
  /\ exists p, url_Parse url = Ok p /\ req_URL req = cleaned p.
Proof.
  unfold http_NewRequest.
  destruct (negb _); [discriminate |].
  destruct (url_Parse url) as [p | e]; [| discriminate].
  intros [= <-]. cbn. eauto.
Qed.

(** C2. With method GET and a body that is not nil, [NewRequest] builds the
    request from the resolved URL with the body's [AppendToQuery] applied
    (when the body has one) and from no payload: the encoder is not called
    (the world is as before), a request that comes back has no body and no
    Content-Type, and its URL is the parse of the appended URL. *)
Theorem NewRequest_GET_skips_encoding {T} `{Encoder T}
    (qa : option (QueryAppender T)) (c : Client) (uri : string) (b : T)
    (u : URL) (w : World) :
  URL_Parse (baseURL c) (String.concat "/" [Path (baseURL c); uri]) = Ok u ->
  let u' := match qa with
            | Some q => @AppendToQuery T q b u
            | None => u
            end in
  NewRequest qa c "GET" uri (Some b) w
  = (match http_NewRequest "GET" (URL_String u') None with
     | Ok req => (Some (set_Header "Accept" "application/json" req), None)
     | Err err => (None, Some err)
     end, w)
  /\ (forall req,
        run (NewRequest qa c "GET" uri (Some b)) w = (Some req, None) ->
        req_Body req = None
        /\ req_Header req !! "Content-Type" = None
        /\ exists p, url_Parse (URL_String u') = Ok p /\ req_URL req = cleaned p).
Proof.
  intros Hu u'.
  assert (E : NewRequest qa c "GET" uri (Some b) w
              = (match http_NewRequest "GET" (URL_String u') None with
                 | Ok req => (Some (set_Header "Accept" "application/json" req), None)
                 | Err err => (None, Some err)
                 end, w)).
  { step_NewRequest. rewrite Hu. cbn. fold u'.
    destruct (http_NewRequest "GET" (URL_String u') None); reflexivity. }
  split; [exact E |].
  intros req. unfold run. rewrite E. cbn.
  destruct (http_NewRequest "GET" (URL_String u') None) as [r0 | e] eqn:Hr0;
    [| discriminate].
  intros [= <-].
  destruct (http_NewRequest_fields _ _ _ _ Hr0) as (Hb & Hh & p & Hp & Hurl).
  cbn. rewrite Hb, Hh. unfold Header_Set.
  split; [reflexivity |]. split; [| eauto].
  rewrite lookup_insert_ne by discriminate. apply lookup_empty.
Qed.

(** C5 (as amended). With a method other than GET and a body [b] that is
    not nil, once the URL resolves, the encoder gives [bytes] and
    [http.NewRequest] accepts the request: [NewRequest] returns the request
    of [http.NewRequest] with the two headers set; its Content-Type and its
    Accept are application/json and its body is [bytes], the bytes the
    encoder gave for [b], unchanged.  What a decoder reads back from them is
    the codec's matter. *)
Theorem NewRequest_JSON_body_attached {T} `{Encoder T}
    (qa : option (QueryAppender T)) (c : Client) (method uri : string)
    (b : T) (u : URL) (bytes : string) (r0 : Request) (w : World) :
  method <> "GET" ->
  URL_Parse (baseURL c) (String.concat "/" [Path (baseURL c); uri]) = Ok u ->
  json_Encode b = Ok bytes ->
  http_NewRequest method
    (URL_String (match qa with
                 | Some q => @AppendToQuery T q b u
                 | None => u
                 end))
    (Some bytes) = Ok r0 ->
  exists req,
    run (NewRequest qa c method uri (Some b)) w = (Some req, None)
    /\ req = set_Header "Accept" "application/json"
               (set_Header "Content-Type" "application/json" r0)
    /\ req_Header req !! "Content-Type" = Some ["application/json"]
    /\ req_Header req !! "Accept" = Some ["application/json"]
    /\ req_Body req = Some bytes.
Proof.
  intros Hm Hu Henc Hr0.
  exists (set_Header "Accept" "application/json"
            (set_Header "Content-Type" "application/json" r0)).
  destruct (http_NewRequest_fields _ _ _ _ Hr0) as (Hb & Hh & _).
  split; [| split; [reflexivity | split; [| split]]].
  - step_NewRequest. rewrite Hu.
    apply String.eqb_neq in Hm. rewrite Hm. cbn. rewrite Henc.
    destruct (logf c "request body: %s" [ABuffer bytes]
                (set_codec (cons Encoded) w)) as [[] w1].
    destruct qa; rewrite Hr0; reflexivity.
  - cbn. unfold Header_Set. rewrite lookup_insert_ne by discriminate.
    apply lookup_insert_eq.
  - cbn. unfold Header_Set. apply lookup_insert_eq.
  - exact Hb.
Qed.







End Properties.

(** ** The package on concrete inputs *)

(** C1. The code at status 300, on a server that sends the error object
    [boom]: [Do] returns the response and no error, and the body is never
    decoded as an [Error]; the same answer under status 301 is returned as
    the wrapped [Error].  The test is [< 200 || > 300], so 300 is on the
    success side of it. *)
Theorem Do_status_300_returns_no_error :
  run (Examples.Do_served 300 Examples.boom Examples.get_workspaces None) World0
  = (Some (Examples.answer 300 Examples.boom), None, None)
  /\ codec (exec (Examples.Do_served 300 Examples.boom
                    Examples.get_workspaces None) World0) = []
  /\ run (Examples.Do_served 301 Examples.boom Examples.get_workspaces None) World0
     = (Some (Examples.answer 301 Examples.boom),
        Some (withStack (apiError {| Message := "boom"; Code := 42 |}) 157),
        None).
Proof. vm_compute. repeat split. Qed.

Lemma Do_404_NotFound_witness :
  run (Examples.Do_served 404 "<html>" Examples.get_workspaces (Some zero_Error))
      World0
  = (Some (Examples.answer 404 "<html>"),
     Some (withStack (apiError ErrorNotFound) 146), Some zero_Error)
  /\ codec (exec (Examples.Do_served 404 "<html>" Examples.get_workspaces
                    (Some zero_Error)) World0) = codec World0.
Proof.
  apply (@Do_404_NotFound (Examples.served 404 "<html>") Mini.Error_Decoder
           Error Mini.Error_Decoder Examples.client Examples.get_workspaces
           (Some zero_Error) World0 (Examples.answer 404 "<html>"));
    reflexivity.
Defined.

Lemma Do_success_empty_body_witness :
  run (Examples.Do_served 204 EmptyString Examples.get_workspaces
         (Some {| Message := "kept"; Code := 7 |})) World0
  = (Some (Examples.answer 204 EmptyString), None,
     Some {| Message := "kept"; Code := 7 |})
  /\ codec (exec (Examples.Do_served 204 EmptyString Examples.get_workspaces
                    (Some {| Message := "kept"; Code := 7 |})) World0)
     = codec World0.
Proof.
  apply (@Do_success_empty_body (Examples.served 204 EmptyString)
           Mini.Error_Decoder Error Mini.Error_Decoder Examples.client
           Examples.get_workspaces {| Message := "kept"; Code := 7 |} World0
           (Examples.answer 204 EmptyString));
    try reflexivity.
  cbn. lia.
Defined.

Lemma Do_failure_status_APIError_witness :
  run (Examples.Do_served 500 Examples.boom Examples.get_workspaces None) World0
  = (Some (Examples.answer 500 Examples.boom),
     Some (withStack (apiError {| Message := "boom"; Code := 42 |}) 157), None)
  /\ run (Examples.Do_served 500 "<html>" Examples.get_workspaces None) World0
     = (Some (Examples.answer 500 "<html>"),
        Some (withStack (Mini.syntax_error "invalid character") 155), None).
Proof.
  split.
  - apply (proj1 (@Do_failure_status_APIError (Examples.served 500 Examples.boom)
             Mini.Error_Decoder Error Mini.Error_Decoder Examples.client
             Examples.get_workspaces None World0
             (Examples.answer 500 Examples.boom)
             eq_refl eq_refl (or_intror eq_refl) ltac:(cbn; lia))).
    vm_compute. reflexivity.
  - apply (proj1 (proj2 (@Do_failure_status_APIError
             (Examples.served 500 "<html>")
             Mini.Error_Decoder Error Mini.Error_Decoder Examples.client
             Examples.get_workspaces None World0
             (Examples.answer 500 "<html>")
             eq_refl eq_refl (or_intror eq_refl) ltac:(cbn; lia)))
             zero_Error).
    vm_compute. reflexivity.
Defined.

Lemma ErrorNotFound_same_type_as_APIError_witness :
  Message ErrorNotFound = "Nothing was found" /\ Code ErrorNotFound = 0
  /\ exists e404 eAPI,
       error_of (run (@Do (Mini.platform Examples.missing_or_broken)
                        Mini.Error_Decoder Error Mini.Error_Decoder
                        Examples.client Examples.get_missing None) World0)
       = Some e404
       /\ error_of (run (@Do (Mini.platform Examples.missing_or_broken)
                           Mini.Error_Decoder Error Mini.Error_Decoder
                           Examples.client Examples.get_workspaces None) World0)
          = Some eAPI
       /\ Cause e404 = apiError ErrorNotFound
       /\ Cause eAPI = apiError {| Message := "Nothing was found"; Code := 0 |}
       /\ is_Error e404 = true /\ is_Error eAPI = true
       /\ (Message {| Message := "Nothing was found"; Code := 0 |}
           = "Nothing was found" ->
           Code {| Message := "Nothing was found"; Code := 0 |} = 0 ->
           Cause eAPI = Cause e404).
Proof.
  apply (@ErrorNotFound_same_type_as_APIError
           (Mini.platform Examples.missing_or_broken)
           Mini.Error_Decoder Error Mini.Error_Decoder
           Examples.client Examples.get_missing Examples.get_workspaces
           None World0 World0
           (Examples.answer 404 EmptyString)
           (Examples.answer 500 Examples.nothing)
           {| Message := "Nothing was found"; Code := 0 |}
           eq_refl eq_refl eq_refl eq_refl eq_refl (or_intror eq_refl)
           ltac:(cbn; lia)).
  vm_compute. reflexivity.
Defined.

Lemma NewHttpClient_key_and_url_witness :
  @NewHttpClient (Examples.served 200 EmptyString)
    "https://api.clockify.me/api/v1" "secret" World0
  = ((Some Examples.client, None), World0).
Proof.
  apply (proj2 (@NewHttpClient_key_and_url (Examples.served 200 EmptyString))
           "https://api.clockify.me/api/v1" "secret" Examples.api World0).
  - discriminate.
  - vm_compute. reflexivity.
Defined.

Lemma NewRequest_GET_skips_encoding_witness :
  exists req,
    Examples.NewRequest_Filter "GET" "workspaces"
      (Some {| Mini.name := "joe" |}) World0
    = ((Some req, None), World0)
    /\ req_Body req = None
    /\ req_Header req !! "Content-Type" = None
    /\ RawQuery (req_URL req) = "name=joe".
Proof.
  destruct (@NewRequest_GET_skips_encoding (Examples.served 200 EmptyString)
              Mini.Filter Mini.Filter_Encoder (Some Mini.Filter_AppendToQuery)
              Examples.client "workspaces" {| Mini.name := "joe" |}
              {| Scheme := "https"; Host := "api.clockify.me";
                 Path := "/api/v1/workspaces";
                 RawQuery := EmptyString; Fragment := EmptyString |}
              World0 eq_refl) as [E Hreq].
  exists (set_Header "Accept" "application/json"
            {| Method := "GET";
               req_URL := {| Scheme := "https"; Host := "api.clockify.me";
                             Path := "/api/v1/workspaces";
                             RawQuery := "name=joe"; Fragment := EmptyString |};
               req_Header := ∅;
               req_Body := None |}).
  split; [exact E |].
  destruct (Hreq _ eq_refl) as (Hb & Hh & _).
  split; [exact Hb |]. split; [exact Hh | reflexivity].
Defined.

Lemma NewRequest_JSON_body_attached_witness :
  exists req,
    run (Examples.NewRequest_Error "POST" "workspaces"
           (Some {| Message := "boom"; Code := 42 |})) World0
    = (Some req, None)
    /\ req = set_Header "Accept" "application/json"
               (set_Header "Content-Type" "application/json"
                  {| Method := "POST";
                     req_URL := {| Scheme := "https"; Host := "api.clockify.me";
                                   Path := "/api/v1/workspaces";
                                   RawQuery := EmptyString;
                                   Fragment := EmptyString |};
                     req_Header := ∅;
                     req_Body := Some (Examples.boom +:+ Mini.newline) |})
    /\ req_Header req !! "Content-Type" = Some ["application/json"]
    /\ req_Header req !! "Accept" = Some ["application/json"]
    /\ req_Body req = Some (Examples.boom +:+ Mini.newline).
Proof.
  apply (@NewRequest_JSON_body_attached (Examples.served 200 EmptyString)
           Error Mini.Error_Encoder None Examples.client
           "POST" "workspaces" {| Message := "boom"; Code := 42 |}
           {| Scheme := "https"; Host := "api.clockify.me";
              Path := "/api/v1/workspaces";
              RawQuery := EmptyString; Fragment := EmptyString |}
           (Examples.boom +:+ Mini.newline)
           {| Method := "POST";
              req_URL := {| Scheme := "https"; Host := "api.clockify.me";
                            Path := "/api/v1/workspaces";
                            RawQuery := EmptyString; Fragment := EmptyString |};
              req_Header := ∅;
              req_Body := Some (Examples.boom +:+ Mini.newline) |}
           World0).
  - discriminate.
  - vm_compute. reflexivity.
  - vm_compute. reflexivity.
  - vm_compute. reflexivity.
Defined.

(** C5, the round trip: it does not hold of every body the encoder accepts.
    The [Error] whose message is the one byte [0xff] is encoded without
    error, with the message written as [\ufffd]; the request is built with
    Content-Type application/json; and decoding its body gives the message
    U+FFFD, three bytes, which is not the message that went in. *)
Lemma NewRequest_body_does_not_round_trip :
  exists req body,
    run (@NewRequest (Examples.served 200 EmptyString) Error
           GoString.Error_Encoder None Examples.client "POST" "workspaces"
           (Some {| Message := GoString.not_utf8; Code := 0 |})) World0
    = (Some req, None)
    /\ req_Header req !! "Content-Type" = Some ["application/json"]
    /\ req_Body req = Some body
    /\ body = "{" +:+ GoString.quoted "message" +:+ ":" +:+ dquote
              +:+ GoString.escaped_replacement +:+ dquote +:+ ","
              +:+ GoString.quoted "code" +:+ ":0}" +:+ Mini.newline
    /\ GoString.decode_Error body zero_Error
       = ({| Message := GoString.replacement; Code := 0 |}, None)
    /\ fst (GoString.decode_Error body zero_Error)
       <> {| Message := GoString.not_utf8; Code := 0 |}.
Proof.
  eexists. eexists.
  split; [vm_compute; reflexivity |].
  split; [vm_compute; reflexivity |].
  split; [reflexivity |].
  split; [vm_compute; reflexivity |].
  split; [vm_compute; reflexivity |].
  vm_compute. discriminate.
Qed.

(** The wire sees the request with the key header set by [RoundTrip], and
    the body of the response is closed once. *)
Example Do_puts_the_key_on_the_wire :
  let w := exec (Examples.Do_served 200 EmptyString Examples.get_workspaces None)
             World0 in
  (exists sent, wire w = [sent]
                /\ req_Header sent !! "X-Api-Key" = Some ["secret"]
                /\ req_Header sent !! "Accept" = Some ["application/json"])
  /\ closed w = 1%nat.
Proof.
  split; [| reflexivity].
  exists (keyed Examples.client Examples.get_workspaces).
  split; [reflexivity |]. split; vm_compute; reflexivity.
Qed.

(** With the logger of the examples set, [Do] writes one line and returns
    what it returns without a logger. *)
Example Do_with_a_logger :
  run (@Do (Examples.served 500 Examples.boom) Mini.Error_Decoder Error
         Mini.Error_Decoder Examples.loud_client Examples.get_workspaces None)
      World0
  = run (Examples.Do_served 500 Examples.boom Examples.get_workspaces None)
        World0
  /\ length (diag (exec (@Do (Examples.served 500 Examples.boom)
                            Mini.Error_Decoder Error Mini.Error_Decoder
                            Examples.loud_client Examples.get_workspaces None)
                      World0)) = 1%nat
  /\ diag (exec (Examples.Do_served 500 Examples.boom Examples.get_workspaces
                   None) World0) = [].
Proof. vm_compute. repeat split. Qed.

(** * Further properties of the package *)

Section Transport.
Context `{Platform}.
Context {Error_Decoder : Decoder Error}.

Ltac open_Do :=
  unfold run, exec, error_of, Do, http_Client_Do, RoundTrip, next_RoundTrip,
    defer, Body_Close, Decode, bind, ret, io_Copy, keyed in *;
  cbn [fst snd wire] in *.

Ltac past_logf :=
  match goal with
  | |- context [logf ?c ?f ?v ?w] =>
      let E := fresh "E" in
      let w' := fresh "w" in
      pose proof (logf_frame c f v w) as E;
      destruct (logf c f v w) as [[] w'];
      unfold observable in E; cbn [fst snd wire closed codec] in E;
      destruct w'; cbn [wire closed codec] in E; inversion E; subst; clear E
  end.

(** Every branch of [Do] after the response was read in full. *)
Ltac branches r v :=
  destruct (StatusCode r =? 404);
  [| destruct ((StatusCode r <? 200) || (StatusCode r >? 300));
     [cbn; destruct (json_Decode _ _) as [? [?|]]
     | destruct v as [?|];
       [destruct (String.length (data (Body r)) =? 0)%nat |]]].

(** X1. [RoundTrip] of the transport hands the request to the next
    transport once and returns its answer as it is.  The request it hands
    on is the one it was given with [X-Api-Key] set to the key alone,
    whatever the caller had put there; every other header, the method, the
    URL and the body are as the caller built them. *)
Theorem RoundTrip_sets_the_key (t : transport) (r : Request) (w : World) :
  RoundTrip t r w
  = (DefaultTransport (wire w) (set_Header "X-Api-Key" (apiKey t) r),
     {| wire := set_Header "X-Api-Key" (apiKey t) r :: wire w;
        closed := closed w; codec := codec w; diag := diag w |})
  /\ has_header "X-Api-Key" (apiKey t) (set_Header "X-Api-Key" (apiKey t) r)
  /\ (forall k, k <> "X-Api-Key" ->
        req_Header (set_Header "X-Api-Key" (apiKey t) r) !! k
        = req_Header r !! k)
  /\ Method (set_Header "X-Api-Key" (apiKey t) r) = Method r
  /\ req_URL (set_Header "X-Api-Key" (apiKey t) r) = req_URL r
  /\ req_Body (set_Header "X-Api-Key" (apiKey t) r) = req_Body r.
Proof.
  split; [reflexivity |].
  unfold has_header, set_Header, Header_Set. cbn.
  split; [apply lookup_insert_eq |].
  split; [| auto].
  intros k Hk. apply lookup_insert_ne. congruence.
Qed.

(** X2. The body of a response is closed once on every path of [Do] that
    has a response without error, and [Do] closes nothing when the
    transport failed. *)
Theorem Do_closes_the_body_once {T} `{Decoder T} (c : Client) (req : Request)
    (v : option T) (w : World) :
  closed (exec (Do c req v) w)
  = match DefaultTransport (wire w) (keyed c req) with
    | Responded _ => S (closed w)
    | Failed _ _ => closed w
    end.
Proof.
  open_Do.
  destruct (DefaultTransport _ _) as [r | r err]; [| reflexivity].
  destruct (failure (Body r)); [reflexivity |].
  past_logf. branches r v; reflexivity.
Qed.

(** X3. When [c.Client.Do] comes back with an error, [Do] returns what it
    got: the response, if any, and the error without a stack wrapper; the
    destination is untouched, and the world is as the client's call left
    it: no log line, no decoder call, nothing closed. *)
Theorem Do_client_failure {T} `{Decoder T} (c : Client) (req : Request)
    (v : option T) (w w1 : World) (r : option Response) (err : error) :
  http_Client_Do c req w = (Failed r err, w1) ->
  Do c req v w = ((r, Some err, v), w1).
Proof. intros Hdo. unfold Do, bind, ret. rewrite Hdo. reflexivity. Qed.

(** X4. When reading the body fails, [Do] drops the response: it returns no
    response and the read error wrapped, whatever the status is (a 404 is
    not reported as [ErrorNotFound]); nothing is logged or decoded, and the
    body is closed. *)
Theorem Do_body_read_failure {T} `{Decoder T} (c : Client) (req : Request)
    (v : option T) (w : World) (r : Response) (err : error) :
  DefaultTransport (wire w) (keyed c req) = Responded r ->
  failure (Body r) = Some err ->
  Do c req v w
  = ((None, Some (withStack err 140), v),
     {| wire := keyed c req :: wire w; closed := S (closed w);
        codec := codec w; diag := diag w |}).
Proof. intros Hnet Hread. open_Do. rewrite Hnet, Hread. reflexivity. Qed.

Lemma nonempty_length (s : string) :
  s <> EmptyString -> (String.length s =? 0)%nat = false.
Proof. destruct s; [congruence | reflexivity]. Qed.

(** X5. A response with a status from 200 to 300, a body that is not empty
    and a destination: [Do] decodes the body into the destination, once,
    and returns the response; the error is nil when the decoder succeeded
    and the decoder's error wrapped when it failed, and the destination
    holds what the decoder left in it, also when it failed. *)
Theorem Do_success_decodes_into_destination {T} `{Decoder T} (c : Client)
    (req : Request) (dst : T) (w : World) (r : Response) :
  DefaultTransport (wire w) (keyed c req) = Responded r ->
  failure (Body r) = None ->
  200 <= StatusCode r <= 300 ->
  data (Body r) <> EmptyString ->
  run (Do c req (Some dst)) w
  = (Some r, WithStack 168 (snd (json_Decode (data (Body r)) dst)),
     Some (fst (json_Decode (data (Body r)) dst)))
  /\ codec (exec (Do c req (Some dst)) w) = Decoded (data (Body r)) :: codec w.
Proof.
  intros Hnet Hread Hst Hdata. open_Do. rewrite Hnet, Hread.
  past_logf.
  destruct (success_branch (StatusCode r) Hst) as [-> ->].
  rewrite (nonempty_length _ Hdata). cbn. auto.
Qed.

(** X6. A response with a status from 200 to 300 and no destination: the
    body is not parsed, whatever it holds, and [Do] returns the response
    without error. *)
Theorem Do_success_without_destination {T} `{Decoder T} (c : Client)
    (req : Request) (w : World) (r : Response) :
  DefaultTransport (wire w) (keyed c req) = Responded r ->
  failure (Body r) = None ->
  200 <= StatusCode r <= 300 ->
  run (Do c req (@None T)) w = (Some r, None, None)
  /\ codec (exec (Do c req (@None T)) w) = codec w.
Proof.
  intros Hnet Hread Hst. open_Do. rewrite Hnet, Hread.
  past_logf.
  destruct (success_branch (StatusCode r) Hst) as [-> ->].
  cbn. auto.
Qed.

(** X7. When [Do] returns no error, it returns a response, read in full,
    whose status is from 200 to 300. *)
Theorem Do_nil_error_means_success {T} `{Decoder T} (c : Client)
    (req : Request) (v : option T) (w : World) :
  error_of (run (Do c req v) w) = None ->
  exists r,
    fst (fst (run (Do c req v) w)) = Some r
    /\ failure (Body r) = None
    /\ 200 <= StatusCode r <= 300.
Proof.
  open_Do.
  destruct (DefaultTransport _ _) as [r | r err]; [| discriminate].
  destruct (failure (Body r)) eqn:Hread; [discriminate |].
  past_logf.
  destruct (StatusCode r =? 404) eqn:H404; [discriminate |].
  destruct ((StatusCode r <? 200) || (StatusCode r >? 300)) eqn:Hout.
  - cbn. destruct (json_Decode _ _) as [? [?|]]; discriminate.
  - apply orb_false_iff in Hout as [Hlo Hhi].
    apply Z.ltb_ge in Hlo. rewrite Z.gtb_ltb in Hhi. apply Z.ltb_ge in Hhi.
    intros _. exists r.
    destruct v as [?|];
      [destruct (String.length (data (Body r)) =? 0)%nat |];
      cbn; repeat split; auto; lia.
Qed.

(** X8. [Do] never calls the encoder, and it calls the decoder at most once,
    on the body of the response it returns. *)
Theorem Do_decodes_at_most_once {T} `{Decoder T} (c : Client) (req : Request)
    (v : option T) (w : World) :
  codec (exec (Do c req v) w) = codec w
  \/ exists r,
       fst (fst (run (Do c req v) w)) = Some r
       /\ codec (exec (Do c req v) w) = Decoded (data (Body r)) :: codec w.
Proof.
  open_Do.
  destruct (DefaultTransport _ _) as [r | r err]; [| left; reflexivity].
  destruct (failure (Body r)); [left; reflexivity |].
  past_logf. branches r v;
    try (left; reflexivity); right; exists r; split; reflexivity.
Qed.

(** X9. With a logger set, [Do] writes one line for a response it read in
    full, before it looks at the status and so for every status: the
    logger's [Printf] is called once with the format and with one argument,
    the slice that holds the URL, the status and the body. *)
Theorem Do_logs_each_response_once {T} `{Decoder T} (c : Client)
    (req : Request) (v : option T) (w : World) (r : Response) (l : Logger) :
  Logger_ c = Some l ->
  DefaultTransport (wire w) (keyed c req) = Responded r ->
  failure (Body r) = None ->
  diag (exec (Do c req v) w)
  = Printf l Do_format
      [ASlice [AString (URL_String (req_URL req)); AInt (StatusCode r);
               ABuffer (data (Body r))]]
      (diag w).
Proof.
  intros Hl Hnet Hread. open_Do. rewrite Hnet, Hread.
  unfold logf. rewrite Hl. cbn.
  branches r v; reflexivity.
Qed.

End Transport.

Section Builder.
Context `{Platform}.
Context {Error_Decoder : Decoder Error}.

Ltac open_NewRequest :=
  unfold run, exec, NewRequest, Encode, bind, ret in *; cbn [fst snd] in *.

(** X10. With a nil body, under every method, [NewRequest] calls no encoder
    and writes no log line; the request is built by [http.NewRequest] from
    the resolved URL and a nil reader, so a request that comes back has no
    body and no Content-Type. *)
Theorem NewRequest_nil_body {T} `{Encoder T} (qa : option (QueryAppender T))
    (c : Client) (method uri : string) (u : URL) (w : World) :
  URL_Parse (baseURL c) (String.concat "/" [Path (baseURL c); uri]) = Ok u ->
  NewRequest qa c method uri (@None T) w
  = (match http_NewRequest method (URL_String u) None with
     | Ok req => (Some (set_Header "Accept" "application/json" req), None)
     | Err err => (None, Some err)
     end, w)
  /\ (forall req,
        run (NewRequest qa c method uri (@None T)) w = (Some req, None) ->
        req_Body req = None /\ req_Header req !! "Content-Type" = None).
Proof.
  intros Hu.
  assert (E : NewRequest qa c method uri (@None T) w
              = (match http_NewRequest method (URL_String u) None with
                 | Ok req => (Some (set_Header "Accept" "application/json" req), None)
                 | Err err => (None, Some err)
                 end, w)).
  { open_NewRequest. rewrite Hu.
    destruct (String.eqb method "GET"); cbn;
      destruct (http_NewRequest method (URL_String u) None); reflexivity. }
  split; [exact E |].
  intros req. unfold run. rewrite E. cbn.
  destruct (http_NewRequest method (URL_String u) None) as [r0 | e] eqn:Hr0;
    [| discriminate].
  intros [= <-].
  destruct (http_NewRequest_fields _ _ _ _ Hr0) as (Hb & Hh & _).
  cbn. rewrite Hb, Hh. unfold Header_Set.
  split; [reflexivity |].
  rewrite lookup_insert_ne by discriminate. apply lookup_empty.
Qed.

(** X11. When the path does not resolve against the base URL, [NewRequest]
    returns no request and the parse error as it is, before anything else:
    the body is neither asked for its query nor encoded, nothing is
    logged. *)
Theorem NewRequest_unresolved_path {T} `{Encoder T}
    (qa : option (QueryAppender T)) (c : Client) (method uri : string)
    (body : option T) (err : error) (w : World) :
  URL_Parse (baseURL c) (String.concat "/" [Path (baseURL c); uri]) = Err err ->
  NewRequest qa c method uri body w = ((None, Some err), w).
Proof. intros Hu. open_NewRequest. rewrite Hu. reflexivity. Qed.

(** X12. When the encoder refuses the body of a request that is not a GET,
    [NewRequest] returns no request and the encoder's error as it is; the
    encoder was called once and no log line is written. *)
Theorem NewRequest_encode_failure {T} `{Encoder T}
    (qa : option (QueryAppender T)) (c : Client) (method uri : string)
    (b : T) (u : URL) (err : error) (w : World) :
  method <> "GET" ->
  URL_Parse (baseURL c) (String.concat "/" [Path (baseURL c); uri]) = Ok u ->
  json_Encode b = Err err ->
  NewRequest qa c method uri (Some b) w
  = ((None, Some err), set_codec (cons Encoded) w).
Proof.
  intros Hm Hu Henc. open_NewRequest. rewrite Hu.
  apply String.eqb_neq in Hm. rewrite Hm. cbn. rewrite Henc. reflexivity.
Qed.

(** X13. A body that is a [QueryAppender], under a method other than GET,
    goes to both places: the URL of the request is the parse of the
    resolved URL with the body's query applied, and the payload is the
    body's JSON. *)
Theorem NewRequest_query_and_payload {T} `{Encoder T} (q : QueryAppender T)
    (c : Client) (method uri : string) (b : T) (u : URL) (bytes : string)
    (req : Request) (w : World) :
  method <> "GET" ->
  URL_Parse (baseURL c) (String.concat "/" [Path (baseURL c); uri]) = Ok u ->
  json_Encode b = Ok bytes ->
  run (NewRequest (Some q) c method uri (Some b)) w = (Some req, None) ->
  req_Body req = Some bytes
  /\ exists p, url_Parse (URL_String (@AppendToQuery T q b u)) = Ok p
               /\ req_URL req = cleaned p.
Proof.
  intros Hm Hu Henc. open_NewRequest. rewrite Hu.
  apply String.eqb_neq in Hm. rewrite Hm. cbn. rewrite Henc.
  destruct (logf c _ _ _) as [[] w1].
  destruct (http_NewRequest _ _ _) as [r0 | e] eqn:Hr0; [| discriminate].
  intros [= <-].
  destruct (http_NewRequest_fields _ _ _ _ Hr0) as (Hb & _ & p & Hp & Hurl).
  cbn. split; [exact Hb | eauto].
Qed.

(** X14. The header of every request [NewRequest] returns: [Accept] is
    application/json; [Content-Type] is application/json when the request
    has a body and absent when it has none; there is no other header, so
    the key is not in it. *)
Theorem NewRequest_headers {T} `{Encoder T} (qa : option (QueryAppender T))
    (c : Client) (method uri : string) (body : option T) (req : Request)
    (w : World) :
  run (NewRequest qa c method uri body) w = (Some req, None) ->
  req_Header req
  = match req_Body req with
    | Some _ => Accept_and_Content_Type
    | None => Accept_only
    end.
Proof.
  open_NewRequest.
  destruct (URL_Parse _ _) as [u | e]; [| discriminate].
  destruct (if String.eqb method "GET" then None else body) as [b |].
  - cbn. destruct (json_Encode b) as [bytes | e]; [| discriminate].
    destruct (logf c _ _ _) as [[] w1].
    destruct (http_NewRequest _ _ _) as [r0 | e] eqn:Hr0; [| discriminate].
    intros [= <-].
    destruct (http_NewRequest_fields _ _ _ _ Hr0) as (Hb & Hh & _).
    cbn. rewrite Hb, Hh. reflexivity.
  - cbn. destruct (http_NewRequest _ _ _) as [r0 | e] eqn:Hr0; [| discriminate].
    intros [= <-].
    destruct (http_NewRequest_fields _ _ _ _ Hr0) as (Hb & Hh & _).
    cbn. rewrite Hb, Hh. reflexivity.
Qed.

(** X15. [NewRequest] sends nothing and closes nothing; it calls the encoder
    at most once; and it returns a request without an error or an error
    without a request. *)
Theorem NewRequest_builds_only {T} `{Encoder T} (qa : option (QueryAppender T))
    (c : Client) (method uri : string) (body : option T) (w : World) :
  wire (exec (NewRequest qa c method uri body) w) = wire w
  /\ closed (exec (NewRequest qa c method uri body) w) = closed w
  /\ (codec (exec (NewRequest qa c method uri body) w) = codec w
      \/ codec (exec (NewRequest qa c method uri body) w) = Encoded :: codec w)
  /\ ((exists req, run (NewRequest qa c method uri body) w = (Some req, None))
      \/ (exists err, run (NewRequest qa c method uri body) w = (None, Some err))).
Proof.
  open_NewRequest.
  destruct (URL_Parse _ _) as [u | e]; [| cbn; eauto 7].
  destruct (if String.eqb method "GET" then None else body) as [b |].
  - cbn. destruct (json_Encode b) as [bytes | e]; [| cbn; eauto 7].
    pose proof (logf_frame c "request body: %s" [ABuffer bytes]
                  (set_codec (cons Encoded) w)) as E.
    destruct (logf c _ _ _) as [[] w1].
    unfold observable in E. cbn in E. inversion E as [[Ew Ec Ek]].
    destruct (http_NewRequest _ _ _); cbn; rewrite Ew, Ec, Ek; eauto 7.
  - cbn. destruct (http_NewRequest _ _ _); cbn; eauto 7.
Qed.

(** X16. An empty method is not the GET of [NewRequest]'s own test, so a
    body given with it is encoded; [http.NewRequest] then reads the empty
    method as GET.  The request that comes back is a GET that carries the
    JSON body and its Content-Type. *)
Theorem NewRequest_empty_method {T} `{Encoder T} (qa : option (QueryAppender T))
    (c : Client) (uri : string) (b : T) (u p : URL) (bytes : string)
    (w : World) :
  URL_Parse (baseURL c) (String.concat "/" [Path (baseURL c); uri]) = Ok u ->
  json_Encode b = Ok bytes ->
  validMethod "GET" = true ->
  url_Parse (URL_String (match qa with
                         | Some q => @AppendToQuery T q b u
                         | None => u
                         end)) = Ok p ->
  exists req,
    run (NewRequest qa c EmptyString uri (Some b)) w = (Some req, None)
    /\ Method req = "GET"
    /\ req_Body req = Some bytes
    /\ has_header "Content-Type" "application/json" req.
Proof.
  intros Hu Henc Hvalid Hp.
  exists (set_Header "Accept" "application/json"
            (set_Header "Content-Type" "application/json"
               {| Method := "GET"; req_URL := cleaned p;
                  req_Header := ∅; req_Body := Some bytes |})).
  split.
  - open_NewRequest. rewrite Hu. cbn. rewrite Henc.
    destruct (logf c _ _ _) as [[] w1].
    unfold http_NewRequest. cbn. rewrite Hvalid. cbn.
    destruct qa; rewrite Hp; reflexivity.
  - unfold has_header. cbn. unfold Header_Set.
    split; [reflexivity |]. split; [reflexivity |].
    rewrite lookup_insert_ne by discriminate. apply lookup_insert_eq.
Qed.

(** X17. With a key that is not empty and a base URL that [url.Parse]
    refuses, [NewHttpClient] returns no client and the parse error wrapped;
    nothing is sent. *)
Theorem NewHttpClient_bad_url (baseURL apiKey : string) (err : error)
    (w : World) :
  apiKey <> EmptyString ->
  url_Parse baseURL = Err err ->
  NewHttpClient baseURL apiKey w = ((None, Some (withStack err 44)), w).
Proof.
  intros Hkey Hurl. unfold NewHttpClient.
  destruct apiKey as [| a k]; [contradiction |].
  cbn. rewrite Hurl. reflexivity.
Qed.

(** X18. Every client [NewHttpClient] returns comes without an error, holds
    the key it was given, which is not empty, on a transport over the
    default one, stands on the parse of the base URL, and has no logger;
    building it changes nothing in the world. *)
Theorem NewHttpClient_client (url apiKey : string) (c : Client)
    (err : option error) (w w' : World) :
  NewHttpClient url apiKey w = ((Some c, err), w') ->
  err = None
  /\ apiKey <> EmptyString
  /\ Transport c = {| apiKey := apiKey; next := http_DefaultTransport |}
  /\ url_Parse url = Ok (baseURL c)
  /\ Logger_ c = None
  /\ w' = w.
Proof.
  unfold NewHttpClient, ret.
  destruct apiKey as [| a k]; [discriminate |]. cbn.
  destruct (url_Parse url) as [u | e]; [| discriminate].
  intros [= <- <- <-]. cbn. repeat split. discriminate.
Qed.

(** X19. A client from [NewHttpClient]: its transport sets on every request
    it is given the key given at construction, and since the client has no
    logger, [Do] with it writes no diagnostics. *)
Theorem NewHttpClient_then_Do {T} `{Decoder T} (baseURL apiKey : string)
    (c : Client) (w0 : World) (req : Request) (v : option T) (w : World) :
  run (NewHttpClient baseURL apiKey) w0 = (Some c, None) ->
  RoundTrip (Transport c) req w
  = (DefaultTransport (wire w) (set_Header "X-Api-Key" apiKey req),
     {| wire := set_Header "X-Api-Key" apiKey req :: wire w;
        closed := closed w; codec := codec w; diag := diag w |})
  /\ diag (exec (Do c req v) w) = diag w.
Proof.
  unfold run, NewHttpClient, ret.
  destruct apiKey as [| a k]; [discriminate |]. cbn.
  destruct (url_Parse baseURL) as [u | e]; [| discriminate].
  intros [= <-].
  split; [reflexivity |].
  unfold exec, Do, http_Client_Do, RoundTrip, next_RoundTrip, defer,
    Body_Close, Decode, bind, ret, io_Copy, logf. cbn.
  destruct (DefaultTransport _ _) as [r | r err]; [| reflexivity].
  destruct (failure (Body r)); [reflexivity |].
  destruct (StatusCode r =? 404); [reflexivity |].
  destruct ((StatusCode r <? 200) || (StatusCode r >? 300)).
  - cbn. destruct (json_Decode _ _) as [? [?|]]; reflexivity.
  - destruct v as [?|]; [| reflexivity].
    destruct (String.length (data (Body r)) =? 0)%nat; reflexivity.
Qed.

(** X20. The text of the error [Do] returns for a response that it takes
    for a failure.  For a 404 it is the text of the sentinel; for another
    failure status it is the message and the code of the decoded [Error],
    or the text of the decoder's error when the body does not decode.  The
    stack wrapper adds nothing to the text. *)
Theorem Do_error_text {T} `{Decoder T} (c : Client) (req : Request)
    (v : option T) (w : World) (r : Response) :
  DefaultTransport (wire w) (keyed c req) = Responded r ->
  failure (Body r) = None ->
  StatusCode r < 200 \/ StatusCode r > 300 ->
  exists err,
    error_of (run (Do c req v) w) = Some err
    /\ error_Error err
       = if StatusCode r =? 404 then "Nothing was found (code: 0)"
         else match @json_Decode Error Error_Decoder (data (Body r)) zero_Error with
              | (e, None) => Message e +:+ " (code: " +:+ decimal (Code e) +:+ ")"
              | (_, Some derr) => error_Error derr
              end.
Proof.
  intros Hnet Hread Hst.
  unfold run, error_of, Do, http_Client_Do, RoundTrip, next_RoundTrip, defer,
    Body_Close, Decode, bind, ret, io_Copy, keyed in *. cbn [fst snd wire] in *.
  rewrite Hnet, Hread.
  destruct (logf c _ _ _) as [[] w1].
  destruct (StatusCode r =? 404) eqn:H404.
  - eexists. split; reflexivity.
  - apply Z.eqb_neq in H404.
    destruct (failure_branch (StatusCode r) Hst H404) as [_ ->].
    unfold zero_Error. cbn.
    destruct (json_Decode _ _) as [e [derr |]]; eexists; split; reflexivity.
Qed.

(** X21. With a logger set, [NewRequest] logs the body it encoded, once, as
    soon as it is encoded: the line is written also when [http.NewRequest]
    then refuses the request.  [Printf] gets the format and one argument,
    the slice that holds the buffer. *)
Theorem NewRequest_logs_the_encoded_body {T} `{Encoder T}
    (qa : option (QueryAppender T)) (c : Client) (method uri : string)
    (b : T) (u : URL) (bytes : string) (l : Logger) (w : World) :
  Logger_ c = Some l ->
  method <> "GET" ->
  URL_Parse (baseURL c) (String.concat "/" [Path (baseURL c); uri]) = Ok u ->
  json_Encode b = Ok bytes ->
  diag (exec (NewRequest qa c method uri (Some b)) w)
  = Printf l "request body: %s" [ASlice [ABuffer bytes]] (diag w).
Proof.
  intros Hl Hm Hu Henc. open_NewRequest. rewrite Hu.
  apply String.eqb_neq in Hm. rewrite Hm. cbn. rewrite Henc.
  unfold logf. rewrite Hl.
  destruct (http_NewRequest _ _ _); reflexivity.
Qed.

End Builder.

(** * Properties of the root command *)

Lemma error_Error_Cause (err : error) : error_Error err = error_Error (Cause err).
Proof. induction err as [s | e | pkg msg | e IH pc]; auto. Qed.

Section RootProperties.
Import cmd.
Context `{Environment}.

(** X22. [Execute], when the command tree returns.  Without an error it
    returns and writes nothing.  With an error it exits with status 1 after
    one write to the standard error: with debug off the text of the cause
    of the error (its stack wrappers add nothing) and a line feed, with
    debug on the error formatted with its stack. *)
Theorem Execute_outcome (v c d : string) (p p' : Process) (err : option error) :
  rootCmd_Execute (snd (set_build v c d p)) = (Returned err, p') ->
  Execute v c d p
  = match err with
    | None => (Returned tt, p')
    | Some e =>
        (Exited 1,
         {| cfgFile := cfgFile p'; version := version p'; commit := commit p';
            buildDate := buildDate p'; viper := viper p'; stdout := stdout p';
            stderr := ((if viper_GetBool "debug" p' then format_plus_v e
                        else error_Error (Cause e)) +:+ line_feed)
                      :: stderr p' |})
    end.
Proof.
  intros Hroot. unfold Execute, andThen. cbn in *. rewrite Hroot.
  destruct err as [e |]; [| reflexivity].
  unfold GetBool, fmt_Fprintln_Stderr, write_stderr, os_Exit. cbn.
  rewrite <- error_Error_Cause.
  destruct (viper_GetBool "debug" p'); reflexivity.
Qed.

(** X23. [initConfig] ends the process in one case only, and then with
    status 1: no configuration file was named and the home directory is not
    known. *)
Theorem initConfig_exit (p : Process) (status : Z) :
  fst (initConfig p) = Exited status
  <-> status = 1 /\ cfgFile p = EmptyString
      /\ exists err, homedir_Dir = Err err.
Proof.
  unfold initConfig, andThen, ReadInConfig_, call_viper, fmt_Println,
    fmt_Print, write_stdout, os_Exit, done.
  destruct (cfgFile p) as [| a f] eqn:Hcfg; cbn.
  - destruct homedir_Dir as [home | e]; cbn.
    + split.
      * destruct (viper_ReadInConfig _) as [[e | e] |]; discriminate.
      * intros (_ & _ & e & He). discriminate.
    + split.
      * intros [= <-]. eauto.
      * intros (-> & _). reflexivity.
  - split.
    + destruct (viper_ReadInConfig _) as [[e | e] |]; discriminate.
    + intros (_ & Hf & _). discriminate.
Qed.

(** X24. When [initConfig] stops for want of a home directory, it has
    written the error and a line feed to the standard output and has made
    no call to [viper]: the environment is not bound and no configuration
    is read. *)
Theorem initConfig_without_home (p : Process) (err : error) :
  cfgFile p = EmptyString ->
  homedir_Dir = Err err ->
  initConfig p
  = (Exited 1,
     {| cfgFile := cfgFile p; version := version p; commit := commit p;
        buildDate := buildDate p; viper := viper p;
        stdout := (error_Error err +:+ line_feed) :: stdout p;
        stderr := stderr p |}).
Proof.
  intros Hcfg Hhome.
  unfold initConfig, andThen, fmt_Println, write_stdout, os_Exit.
  destruct p as [cfg ver com bd vp out errs]. cbn in *. subst cfg.
  cbn. rewrite Hhome. reflexivity.
Qed.

(** X25. When [initConfig] returns, it has located the configuration (the
    named file, or [.clockify-cli] in the home directory), then bound the
    environment (dots to underscores, prefix [clockify]), then read the
    configuration, in this order.  A failed read does not stop it: a missing
    file is passed over in silence, any other error is written to the
    standard output. *)
Theorem initConfig_returns (p : Process) :
  fst (initConfig p) = Returned tt ->
  exists loc,
    (cfgFile p <> EmptyString /\ loc = [SetConfigFile (cfgFile p)]
     \/ cfgFile p = EmptyString
        /\ exists home, homedir_Dir = Ok home
                        /\ loc = [SetConfigName ".clockify-cli";
                                  AddConfigPath home])
    /\ viper (snd (initConfig p))
       = ReadInConfig :: AutomaticEnv :: SetEnvPrefix "clockify"
         :: SetEnvKeyReplacer "." "_" :: loc ++ viper p
    /\ stdout (snd (initConfig p))
       = match viper_ReadInConfig
                 (AutomaticEnv :: SetEnvPrefix "clockify"
                  :: SetEnvKeyReplacer "." "_" :: loc ++ viper p) with
         | Some (OtherConfigError e) => error_Error e :: stdout p
         | _ => stdout p
         end
    /\ stderr (snd (initConfig p)) = stderr p.
Proof.
  unfold initConfig, andThen, ReadInConfig_, call_viper, fmt_Println,
    fmt_Print, write_stdout, os_Exit, done.
  destruct (cfgFile p) as [| a f] eqn:Hcfg; cbn.
  - destruct homedir_Dir as [home | e]; cbn; [| discriminate].
    intros _. exists [SetConfigName ".clockify-cli"; AddConfigPath home].
    split; [right; eauto |].
    destruct (viper_ReadInConfig _) as [[e | e] |]; cbn; auto.
  - intros _. exists [SetConfigFile (String a f)].
    split; [left; split; [discriminate | reflexivity] |].
    destruct (viper_ReadInConfig _) as [[e | e] |]; cbn; auto.
Qed.

End RootProperties.

(** * The text of an [Error] *)

Lemma chars_append (s t : string) :
  list_ascii_of_string (s +:+ t)
  = (list_ascii_of_string s ++ list_ascii_of_string t)%list.
Proof.
  induction s as [| a s IH]; [reflexivity |].
  exact (f_equal (cons a) IH).
Qed.

Lemma chars_inj (s t : string) :
  list_ascii_of_string s = list_ascii_of_string t -> s = t.
Proof.
  intros E. rewrite <- (string_of_list_ascii_of_string s),
    <- (string_of_list_ascii_of_string t). now rewrite E.
Qed.

(** The digits of a number hold no space. *)
Lemma pretty_N_go_no_space (x : N) (s : string) :
  Forall (fun a => a <> " "%char) (list_ascii_of_string s) ->
  Forall (fun a => a <> " "%char) (list_ascii_of_string (pretty.pretty_N_go x s)).
Proof.
  revert s. induction (N.lt_wf_0 x) as [x _ IH]. intros s Hs.
  destruct (N.eq_dec x 0%N) as [-> | Hx].
  - now rewrite pretty.pretty_N_go_0.
  - rewrite pretty.pretty_N_go_step by lia.
    apply IH; [apply N.div_lt; lia |].
    cbn. constructor; [| exact Hs].
    unfold pretty.pretty_N_char. repeat case_match; discriminate.
Qed.

Lemma decimal_no_space (z : Z) :
  Forall (fun a => a <> " "%char) (list_ascii_of_string (decimal z)).
Proof.
  assert (Hpos : forall p : positive,
             Forall (fun a => a <> " "%char)
               (list_ascii_of_string (pretty.pretty (N.pos p)))).
  { intros p. unfold pretty.pretty, pretty.pretty_N.
    destruct (decide (N.pos p = 0%N)); [discriminate |].
    apply pretty_N_go_no_space. constructor. }
  unfold decimal, pretty.pretty, pretty.pretty_Z.
  destruct z as [| p | p].
  - cbn. repeat constructor. discriminate.
  - apply Hpos.
  - rewrite chars_append. cbn. constructor; [discriminate | apply Hpos].
Qed.

(** Two texts cut at their first space. *)
Lemma cut_at_space (a b x y : list ascii) :
  Forall (fun c => c <> " "%char) a ->
  Forall (fun c => c <> " "%char) b ->
  (a ++ " "%char :: x)%list = (b ++ " "%char :: y)%list ->
  a = b /\ x = y.
Proof.
  intros Ha. revert b. induction Ha as [| c a Hc Ha IH]; intros b Hb E.
  - destruct Hb as [| d b Hd Hb]; cbn in E.
    + now inversion E.
    + inversion E; subst. contradiction.
  - destruct Hb as [| d b Hd Hb]; cbn in E.
    + inversion E; subst. contradiction.
    + inversion E; subst. destruct (IH b Hb H1) as [-> ->]. auto.
Qed.

(** X26. The text of [Error.Error()] tells the error: two [Error] values
    with the same text have the same message and the same code. *)
Theorem Error_Error_inj (e1 e2 : Error) :
  Error_Error e1 = Error_Error e2 -> e1 = e2.
Proof.
  destruct e1 as [m1 k1], e2 as [m2 k2]. unfold Error_Error. cbn.
  intros E. apply (f_equal list_ascii_of_string) in E.
  rewrite !chars_append in E. cbn in E.
  apply (f_equal (@List.rev ascii)) in E.
  rewrite !rev_app_distr in E. cbn in E.
  rewrite !rev_app_distr in E. cbn in E.
  rewrite <- !app_assoc in E. cbn in E.
  injection E as E.
  apply cut_at_space in E as [Ek E];
    [| apply Forall_rev, decimal_no_space ..].
  injection E as E.
  apply (f_equal (@List.rev ascii)) in E, Ek.
  rewrite !rev_involutive in E, Ek.
  apply chars_inj in E, Ek.
  apply pretty.pretty_Z_inj in Ek. now subst.
Qed.

Lemma Error_Error_inj_witness :
  {| Message := "boom"; Code := 42 |} = {| Message := "boom"; Code := 42 |}.
Proof.
  apply (Error_Error_inj {| Message := "boom"; Code := 42 |}
           {| Message := "boom"; Code := 42 |}).
  reflexivity.
Defined.

(** * The further properties on concrete inputs *)

Lemma RoundTrip_sets_the_key_witness :
  has_header "X-Api-Key" "secret"
    (set_Header "X-Api-Key" "secret"
       (set_Header "X-Api-Key" "stale" Examples.get_workspaces))
  /\ req_Header (set_Header "X-Api-Key" "secret"
                   (set_Header "X-Api-Key" "stale" Examples.get_workspaces))
     !! "Accept"
     = req_Header (set_Header "X-Api-Key" "stale" Examples.get_workspaces)
       !! "Accept".
Proof.
  pose proof (@RoundTrip_sets_the_key (Examples.served 200 EmptyString)
                (Transport Examples.client)
                (set_Header "X-Api-Key" "stale" Examples.get_workspaces)
                World0) as (_ & Hkey & Hother & _).
  split; [exact Hkey | apply Hother; discriminate].
Defined.

Lemma Do_client_failure_witness :
  Cases.Do_on Cases.offline Examples.client Examples.get_workspaces None World0
  = ((None, Some Cases.refused, None),
     {| wire := [keyed Examples.client Examples.get_workspaces];
        closed := 0; codec := []; diag := [] |}).
Proof.
  apply (@Do_client_failure Cases.offline Mini.Error_Decoder Error
           Mini.Error_Decoder Examples.client Examples.get_workspaces None
           World0
           {| wire := [keyed Examples.client Examples.get_workspaces];
              closed := 0; codec := []; diag := [] |}
           None Cases.refused).
  reflexivity.
Defined.

Lemma Do_body_read_failure_witness :
  Cases.Do_on (Cases.breaking 404 "<html>") Examples.client
    Examples.get_workspaces None World0
  = ((None, Some (withStack Cases.cut_off 140), None),
     {| wire := [keyed Examples.client Examples.get_workspaces];
        closed := 1; codec := []; diag := [] |}).
Proof.
  apply (@Do_body_read_failure (Cases.breaking 404 "<html>")
           Mini.Error_Decoder Error Mini.Error_Decoder Examples.client
           Examples.get_workspaces None World0
           (Cases.broken_answer 404 "<html>") Cases.cut_off);
    reflexivity.
Defined.

Lemma Do_success_decodes_into_destination_witness :
  run (Examples.Do_served 200 Examples.boom Examples.get_workspaces
         (Some zero_Error)) World0
  = (Some (Examples.answer 200 Examples.boom), None,
     Some {| Message := "boom"; Code := 42 |})
  /\ run (Examples.Do_served 200 "<html>" Examples.get_workspaces
            (Some zero_Error)) World0
     = (Some (Examples.answer 200 "<html>"),
        Some (withStack (Mini.syntax_error "invalid character") 168),
        Some zero_Error).
Proof.
  split.
  - exact (proj1 (@Do_success_decodes_into_destination
                    (Examples.served 200 Examples.boom) Mini.Error_Decoder
                    Error Mini.Error_Decoder Examples.client
                    Examples.get_workspaces zero_Error World0
                    (Examples.answer 200 Examples.boom) eq_refl eq_refl
                    ltac:(cbn; lia) ltac:(discriminate))).
  - exact (proj1 (@Do_success_decodes_into_destination
                    (Examples.served 200 "<html>") Mini.Error_Decoder
                    Error Mini.Error_Decoder Examples.client
                    Examples.get_workspaces zero_Error World0
                    (Examples.answer 200 "<html>") eq_refl eq_refl
                    ltac:(cbn; lia) ltac:(discriminate))).
Defined.

Lemma Do_success_without_destination_witness :
  run (Examples.Do_served 200 "<html>" Examples.get_workspaces None) World0
  = (Some (Examples.answer 200 "<html>"), None, None)
  /\ codec (exec (Examples.Do_served 200 "<html>" Examples.get_workspaces None)
              World0) = codec World0.
Proof.
  apply (@Do_success_without_destination (Examples.served 200 "<html>")
           Mini.Error_Decoder Error Mini.Error_Decoder Examples.client
           Examples.get_workspaces World0 (Examples.answer 200 "<html>"));
    try reflexivity.
  cbn. lia.
Defined.

Lemma Do_nil_error_means_success_witness :
  exists r,
    fst (fst (run (Examples.Do_served 204 EmptyString
                     Examples.get_workspaces None) World0)) = Some r
    /\ failure (Body r) = None
    /\ 200 <= StatusCode r <= 300.
Proof.
  apply (@Do_nil_error_means_success (Examples.served 204 EmptyString)
           Mini.Error_Decoder Error Mini.Error_Decoder Examples.client
           Examples.get_workspaces None World0).
  reflexivity.
Defined.

Lemma Do_logs_each_response_once_witness :
  diag (exec (Cases.Do_on (Examples.served 404 EmptyString)
                Examples.loud_client Examples.get_workspaces None) World0)
  = [Do_format].
Proof.
  apply (@Do_logs_each_response_once (Examples.served 404 EmptyString)
           Mini.Error_Decoder Error Mini.Error_Decoder Examples.loud_client
           Examples.get_workspaces None World0
           (Examples.answer 404 EmptyString) Mini.format_logger);
    reflexivity.
Defined.

Lemma NewRequest_nil_body_witness :
  exists req,
    Examples.NewRequest_Error "DELETE" "workspaces" None World0
    = ((Some req, None), World0)
    /\ Method req = "DELETE"
    /\ req_Body req = None
    /\ req_Header req !! "Content-Type" = None.
Proof.
  destruct (@NewRequest_nil_body (Examples.served 200 EmptyString) Error
              Mini.Error_Encoder None Examples.client "DELETE" "workspaces"
              {| Scheme := "https"; Host := "api.clockify.me";
                 Path := "/api/v1/workspaces";
                 RawQuery := EmptyString; Fragment := EmptyString |}
              World0 eq_refl) as [E Hreq].
  exists (set_Header "Accept" "application/json"
            {| Method := "DELETE";
               req_URL := {| Scheme := "https"; Host := "api.clockify.me";
                             Path := "/api/v1/workspaces";
                             RawQuery := EmptyString;
                             Fragment := EmptyString |};
               req_Header := ∅;
               req_Body := None |}).
  split; [exact E |].
  destruct (Hreq _ eq_refl) as (Hb & Hh).
  split; [reflexivity |]. split; [exact Hb | exact Hh].
Defined.

Lemma NewRequest_unresolved_path_witness :
  Examples.NewRequest_Error "POST" Cases.bad_path
    (Some {| Message := "boom"; Code := 42 |}) World0
  = ((None,
      Some (libraryError "net/url" "invalid control character in URL")),
     World0).
Proof.
  apply (@NewRequest_unresolved_path (Examples.served 200 EmptyString) Error
           Mini.Error_Encoder None Examples.client "POST" Cases.bad_path
           (Some {| Message := "boom"; Code := 42 |})
           (libraryError "net/url" "invalid control character in URL") World0).
  reflexivity.
Defined.

Lemma NewRequest_encode_failure_witness :
  @NewRequest (Examples.served 200 EmptyString) Cases.Chan Cases.Chan_Encoder
    None Examples.loud_client "POST" "workspaces" (Some Cases.make_chan) World0
  = ((None,
      Some (libraryError "encoding/json" "unsupported type: chan int")),
     {| wire := []; closed := 0; codec := [Encoded]; diag := [] |}).
Proof.
  apply (@NewRequest_encode_failure (Examples.served 200 EmptyString)
           Cases.Chan Cases.Chan_Encoder None Examples.loud_client "POST"
           "workspaces" Cases.make_chan
           {| Scheme := "https"; Host := "api.clockify.me";
              Path := "/api/v1/workspaces";
              RawQuery := EmptyString; Fragment := EmptyString |}
           (libraryError "encoding/json" "unsupported type: chan int") World0).
  - discriminate.
  - reflexivity.
  - reflexivity.
Defined.

Lemma NewRequest_query_and_payload_witness :
  exists req,
    run (Examples.NewRequest_Filter "POST" "workspaces"
           (Some {| Mini.name := "joe" |})) World0 = (Some req, None)
    /\ req_Body req
       = Some ("{" +:+ Mini.quoted "name" +:+ ":" +:+ Mini.quoted "joe" +:+ "}"
               +:+ Mini.newline)
    /\ RawQuery (req_URL req) = "name=joe".
Proof.
  eexists. split; [reflexivity |].
  destruct (@NewRequest_query_and_payload (Examples.served 200 EmptyString)
              Mini.Filter Mini.Filter_Encoder Mini.Filter_AppendToQuery
              Examples.client "POST" "workspaces" {| Mini.name := "joe" |}
              {| Scheme := "https"; Host := "api.clockify.me";
                 Path := "/api/v1/workspaces";
                 RawQuery := EmptyString; Fragment := EmptyString |}
              ("{" +:+ Mini.quoted "name" +:+ ":" +:+ Mini.quoted "joe" +:+ "}"
               +:+ Mini.newline)
              _ World0 ltac:(discriminate) eq_refl eq_refl eq_refl)
    as (Hb & _).
  split; [exact Hb | reflexivity].
Defined.

Lemma NewRequest_headers_witness :
  exists req,
    run (Examples.NewRequest_Filter "POST" "workspaces"
           (Some {| Mini.name := "joe" |})) World0 = (Some req, None)
    /\ req_Header req = Accept_and_Content_Type.
Proof.
  eexists. split; [reflexivity |].
  exact (@NewRequest_headers (Examples.served 200 EmptyString)
           Mini.Filter Mini.Filter_Encoder (Some Mini.Filter_AppendToQuery)
           Examples.client "POST" "workspaces" (Some {| Mini.name := "joe" |})
           _ World0 eq_refl).
Defined.

Lemma NewRequest_empty_method_witness :
  exists req,
    run (Examples.NewRequest_Error EmptyString "workspaces"
           (Some {| Message := "boom"; Code := 42 |})) World0
    = (Some req, None)
    /\ Method req = "GET"
    /\ req_Body req = Some (Examples.boom +:+ Mini.newline)
    /\ has_header "Content-Type" "application/json" req.
Proof.
  apply (@NewRequest_empty_method (Examples.served 200 EmptyString) Error
           Mini.Error_Encoder None Examples.client "workspaces"
           {| Message := "boom"; Code := 42 |}
           {| Scheme := "https"; Host := "api.clockify.me";
              Path := "/api/v1/workspaces";
              RawQuery := EmptyString; Fragment := EmptyString |}
           {| Scheme := "https"; Host := "api.clockify.me";
              Path := "/api/v1/workspaces";
              RawQuery := EmptyString; Fragment := EmptyString |}
           (Examples.boom +:+ Mini.newline) World0);
    vm_compute; reflexivity.
Defined.

Lemma NewRequest_logs_the_encoded_body_witness :
  diag (exec (@NewRequest (Examples.served 200 EmptyString) Error
                Mini.Error_Encoder None Examples.loud_client "POST"
                "workspaces" (Some {| Message := "boom"; Code := 42 |}))
          World0)
  = ["request body: %s"].
Proof.
  apply (@NewRequest_logs_the_encoded_body (Examples.served 200 EmptyString)
           Error Mini.Error_Encoder None Examples.loud_client "POST"
           "workspaces" {| Message := "boom"; Code := 42 |}
           {| Scheme := "https"; Host := "api.clockify.me";
              Path := "/api/v1/workspaces";
              RawQuery := EmptyString; Fragment := EmptyString |}
           (Examples.boom +:+ Mini.newline) Mini.format_logger World0).
  - reflexivity.
  - discriminate.
  - reflexivity.
  - vm_compute. reflexivity.
Defined.

Lemma NewHttpClient_bad_url_witness :
  @NewHttpClient (Examples.served 200 EmptyString) Cases.bad_path "secret"
    World0
  = ((None,
      Some (withStack
              (libraryError "net/url" "invalid control character in URL") 44)),
     World0).
Proof.
  apply (@NewHttpClient_bad_url (Examples.served 200 EmptyString)
           Cases.bad_path "secret"
           (libraryError "net/url" "invalid control character in URL") World0).
  - discriminate.
  - reflexivity.
Defined.

Lemma NewHttpClient_client_witness :
  @None error = None
  /\ "secret" <> EmptyString
  /\ Transport Examples.client
     = {| apiKey := "secret"; next := http_DefaultTransport |}
  /\ Mini.parse_url "https://api.clockify.me/api/v1"
     = Ok (baseURL Examples.client)
  /\ Logger_ Examples.client = None
  /\ World0 = World0.
Proof.
  apply (@NewHttpClient_client (Examples.served 200 EmptyString)
           "https://api.clockify.me/api/v1" "secret" Examples.client None
           World0 World0).
  reflexivity.
Defined.

Lemma NewHttpClient_then_Do_witness :
  @RoundTrip (Examples.served 200 EmptyString) (Transport Examples.client)
    Examples.get_workspaces World0
  = (Responded (Examples.answer 200 EmptyString),
     {| wire := [set_Header "X-Api-Key" "secret" Examples.get_workspaces];
        closed := 0; codec := []; diag := [] |})
  /\ diag (exec (Examples.Do_served 200 EmptyString Examples.get_workspaces
                   None) World0) = [].
Proof.
  apply (@NewHttpClient_then_Do (Examples.served 200 EmptyString)
           Mini.Error_Decoder Error Mini.Error_Decoder
           "https://api.clockify.me/api/v1" "secret" Examples.client World0
           Examples.get_workspaces None World0).
  reflexivity.
Defined.

Lemma Do_error_text_witness :
  exists err,
    error_of (run (Examples.Do_served 404 "<html>" Examples.get_workspaces None)
                World0) = Some err
    /\ error_Error err = "Nothing was found (code: 0)".
Proof.
  apply (@Do_error_text (Examples.served 404 "<html>") Mini.Error_Decoder Error
           Mini.Error_Decoder Examples.client Examples.get_workspaces None
           World0 (Examples.answer 404 "<html>") eq_refl eq_refl
           (or_intror eq_refl)).
Defined.

Lemma Execute_outcome_witness :
  @cmd.Execute
    (cmd.environment
       (Some (withStack (apiError {| Message := "boom"; Code := 42 |}) 157))
       false (Ok "/home/joe") None)
    "v1" "abc" "today" cmd.Process0
  = (cmd.Exited 1,
     {| cmd.cfgFile := EmptyString; cmd.version := "v1"; cmd.commit := "abc";
        cmd.buildDate := "today"; cmd.viper := []; cmd.stdout := [];
        cmd.stderr := ["boom (code: 42)" +:+ cmd.line_feed] |}).
Proof.
  exact (@Execute_outcome
           (cmd.environment
              (Some (withStack (apiError {| Message := "boom"; Code := 42 |})
                       157))
              false (Ok "/home/joe") None)
           "v1" "abc" "today" cmd.Process0 _ _ eq_refl).
Defined.

Lemma initConfig_without_home_witness :
  @cmd.initConfig
    (cmd.environment None false
       (Err (libraryError "homedir" "$HOME is not defined")) None)
    cmd.Process0
  = (cmd.Exited 1,
     {| cmd.cfgFile := EmptyString; cmd.version := EmptyString;
        cmd.commit := EmptyString; cmd.buildDate := EmptyString;
        cmd.viper := [];
        cmd.stdout := ["$HOME is not defined" +:+ cmd.line_feed];
        cmd.stderr := [] |}).
Proof.
  apply (@initConfig_without_home
           (cmd.environment None false
              (Err (libraryError "homedir" "$HOME is not defined")) None)
           cmd.Process0 (libraryError "homedir" "$HOME is not defined"));
    reflexivity.
Defined.

Lemma initConfig_returns_witness :
  exists loc,
    ("my.yaml" <> EmptyString /\ loc = [cmd.SetConfigFile "my.yaml"]
     \/ "my.yaml" = EmptyString
        /\ exists home,
             Err (libraryError "homedir" "$HOME is not defined") = Ok home
             /\ loc = [cmd.SetConfigName ".clockify-cli";
                       cmd.AddConfigPath home])
    /\ cmd.viper
         (snd (@cmd.initConfig
                 (cmd.environment None false
                    (Err (libraryError "homedir" "$HOME is not defined"))
                    (Some (cmd.OtherConfigError
                             (libraryError "viper" "bad yaml"))))
                 (cmd.with_cfgFile "my.yaml" cmd.Process0)))
       = cmd.ReadInConfig :: cmd.AutomaticEnv :: cmd.SetEnvPrefix "clockify"
         :: cmd.SetEnvKeyReplacer "." "_" :: loc ++ []
    /\ cmd.stdout
         (snd (@cmd.initConfig
                 (cmd.environment None false
                    (Err (libraryError "homedir" "$HOME is not defined"))
                    (Some (cmd.OtherConfigError
                             (libraryError "viper" "bad yaml"))))
                 (cmd.with_cfgFile "my.yaml" cmd.Process0)))
       = ["bad yaml"]
    /\ cmd.stderr
         (snd (@cmd.initConfig
                 (cmd.environment None false
                    (Err (libraryError "homedir" "$HOME is not defined"))
                    (Some (cmd.OtherConfigError
                             (libraryError "viper" "bad yaml"))))
                 (cmd.with_cfgFile "my.yaml" cmd.Process0)))
       = [].
Proof.
  apply (@initConfig_returns
           (cmd.environment None false
              (Err (libraryError "homedir" "$HOME is not defined"))
              (Some (cmd.OtherConfigError (libraryError "viper" "bad yaml"))))
           (cmd.with_cfgFile "my.yaml" cmd.Process0)).
  reflexivity.
Defined.
